(** * HydrOS AHCI driver (src/drivers/ahci.c): shallow embedding and properties

    The driver manipulates a memory-mapped host bus adapter.  It is embedded
    here as a state-passing program over a machine made of
    - a flat byte-addressed physical memory,
    - a register model that decides what a poll of a port's command and
      status register returns, and
    - the chronological record of every bus access and console line.

    Busy-wait loops carry a poll budget; a program whose budget runs out
    inside a wait is reported as [Hang] together with the machine reached,
    so that safety properties also cover runs that never leave the wait. *)

From Stdlib Require Import ZArith List String Ascii Bool Lia DecimalString.
From Stdlib Require HexadecimalString.
Import ListNotations.
Local Open Scope Z_scope.

(** ** Constants of ahci.c *)

Definition SATA_SIG_ATA   : Z := 0x00000101.
Definition SATA_SIG_ATAPI : Z := 0xEB140101.
Definition SATA_SIG_SEMB  : Z := 0xC33C0101.
Definition SATA_SIG_PM    : Z := 0x96690101.

Definition AHCI_DEV_NULL   : Z := 0.
Definition AHCI_DEV_SATA   : Z := 1.
Definition AHCI_DEV_SEMB   : Z := 2.
Definition AHCI_DEV_PM     : Z := 3.
Definition AHCI_DEV_SATAPI : Z := 4.

Definition HBA_PORT_IPM_ACTIVE  : Z := 1.
Definition HBA_PORT_DET_PRESENT : Z := 3.

Definition AHCI_BASE : Z := 0x400000.

(** ** Integer conversions *)

Definition u8  (v : Z) : Z := v mod 2 ^ 8.
Definition u16 (v : Z) : Z := v mod 2 ^ 16.
Definition u32 (v : Z) : Z := v mod 2 ^ 32.

(** ** Structure layout

    The declarations of [hba_mem_t], [hba_port_t] and [hba_cmd_header_t]
    live in drivers/ahci.h, which is not among the sources at hand.  The
    embedding therefore takes the byte offsets of the fields the driver
    names, and the sizes of the two array element types, as a parameter. *)

Record layout : Type := mkLayout {
  off_pi            : Z;  (* offsetof (hba_mem_t, pi)           *)
  off_ports         : Z;  (* offsetof (hba_mem_t, ports)        *)
  sizeof_port       : Z;  (* sizeof (hba_port_t)                *)
  off_clb           : Z;
  off_clbu          : Z;
  off_fb            : Z;
  off_fbu           : Z;
  off_cmd           : Z;
  off_sig           : Z;
  off_ssts          : Z;
  sizeof_cmd_header : Z;  (* sizeof (hba_cmd_header_t)          *)
  off_prdtl         : Z;  (* 16-bit field                       *)
  off_ctba          : Z;
  off_ctbau         : Z
}.

(** The register map of the AHCI specification (the one the OSDev page
    cited by the driver declares): generic host control occupies the first
    0x100 bytes, each port owns 0x80 bytes, a command header is 32 bytes. *)
Definition ahci_layout : layout :=
  {| off_pi := 0x0C; off_ports := 0x100; sizeof_port := 0x80;
     off_clb := 0x00; off_clbu := 0x04; off_fb := 0x08; off_fbu := 0x0C;
     off_cmd := 0x18; off_sig := 0x24; off_ssts := 0x28;
     sizeof_cmd_header := 0x20;
     off_prdtl := 2; off_ctba := 8; off_ctbau := 12 |}.

(** ** Physical memory *)

Definition memory : Type := Z -> Z.

Definition ld8 (mem : memory) (a : Z) : Z := u8 (mem a).

Definition ld32 (mem : memory) (a : Z) : Z :=
  ld8 mem a + 2 ^ 8 * ld8 mem (a + 1)
  + 2 ^ 16 * ld8 mem (a + 2) + 2 ^ 24 * ld8 mem (a + 3).

Definition st8 (mem : memory) (a v : Z) : memory :=
  fun x => if x =? a then u8 v else mem x.

Definition st16 (mem : memory) (a v : Z) : memory :=
  st8 (st8 mem a v) (a + 1) (Z.shiftr v 8).

Definition st32 (mem : memory) (a v : Z) : memory :=
  st8 (st8 (st8 (st8 mem a v) (a + 1) (Z.shiftr v 8))
           (a + 2) (Z.shiftr v 16))
      (a + 3) (Z.shiftr v 24).

(** Modelled from the spec: [memset] of string/string.h is not among the
    sources at hand.  The specification has it zero a region of a given
    size at a given address; as in the C library, the [n] bytes from [a]
    upwards receive the byte [c]. *)
Fixpoint fill (mem : memory) (a c : Z) (n : nat) : memory :=
  match n with
  | O => mem
  | S k => fill (st8 mem a c) (a + 1) c k
  end.

(** ** Register model

    [port->cmd] carries status bits that the adapter changes on its own
    while the driver polls it.  A register model owns some state and
    answers every read of a command register: it receives the address, the
    value last stored there and its state, and returns the value the
    driver observes together with its next state. *)

Record reg_model : Type := mkRegModel {
  rm_state : Type;
  rm_read  : Z -> Z -> rm_state -> Z * rm_state
}.

(** Plain memory: a poll returns what was stored. *)
Definition ram_model : reg_model :=
  {| rm_state := unit; rm_read := fun _ v d => (v, d) |}.

(** Modelled from the spec: the simulated register model of the
    specification, which clears both running bits after a bounded number
    of polls.  It keeps FIS-receive-running (bit 14) and
    command-list-running (bit 15) set for as many polls as its counter
    holds and clears both from then on. *)
Definition countdown_model : reg_model :=
  {| rm_state := nat;
     rm_read := fun _ v d =>
       match d with
       | O => (Z.land v (Z.lnot 0xC000), O)
       | S k => (Z.lor v 0xC000, k)
       end |}.

(** An adapter whose command-list-running bit (15) never clears. *)
Definition stuck_model : reg_model :=
  {| rm_state := unit; rm_read := fun _ v d => (Z.lor v 0x8000, d) |}.

(** An adapter that answers the first two reads with what was stored,
    then reads command-list-running alone set once, FIS-receive-running
    alone set twice, and both bits clear from then on.  Its state counts
    the reads made so far. *)
Definition flicker_value (d : nat) (v : Z) : Z :=
  match d with
  | 0%nat | 1%nat => v
  | 2%nat => 0x8000
  | 3%nat | 4%nat => 0x4000
  | _ => 0
  end.

Definition flicker_model : reg_model :=
  {| rm_state := nat; rm_read := fun _ v d => (flicker_value d v, S d) |}.


(** ** Observable events *)

Inductive event : Type :=
| EvRead    (a v : Z)            (* 32-bit load  *)
| EvWrite   (a v : Z)            (* 32-bit store *)
| EvWrite16 (a v : Z)            (* 16-bit store *)
| EvMemset  (a c : Z) (n : nat)  (* memset (a, c, n) *)
| EvLog     (line : string).     (* one kprintf call *)

Section Driver.

Variable L : layout.
Variable R : reg_model.

Record machine : Type := mkMachine {
  ram   : memory;
  dev   : rm_state R;
  trace : list event
}.

(** ** Programs *)

Inductive result (A : Type) : Type :=
| Ret  (a : A) (m : machine)
| Hang (m : machine).
Arguments Ret {A} a m.
Arguments Hang {A} m.

Definition M (A : Type) : Type := machine -> result A.

Definition ret {A} (a : A) : M A := fun m => Ret a m.

Definition bind {A B} (p : M A) (f : A -> M B) : M B :=
  fun m => match p m with
           | Ret a m' => f a m'
           | Hang m' => Hang m'
           end.

Notation "x <- p ;; q" := (bind p (fun x => q))
  (at level 61, p at next level, right associativity).
Notation "p ;;; q" := (bind p (fun _ => q))
  (at level 61, right associativity).

Definition final {A} (r : result A) : machine :=
  match r with Ret _ m => m | Hang m => m end.

Definition emit (e : event) (m : machine) : machine :=
  mkMachine (ram m) (dev m) (trace m ++ [e]).

(** Appending events to the record of a machine. *)
Definition extend (m : machine) (evs : list event) : machine :=
  mkMachine (ram m) (dev m) (trace m ++ evs).

(** A load from a 32-bit register or memory word. *)
Definition read32 (a : Z) : M Z :=
  fun m => let v := ld32 (ram m) a in Ret v (emit (EvRead a v) m).

(** A load from [port->cmd], the one register the driver waits on: the
    register model answers. *)
Definition poll32 (a : Z) : M Z :=
  fun m =>
    let (v, d) := rm_read R a (ld32 (ram m) a) (dev m) in
    Ret (u32 v) (mkMachine (ram m) d (trace m ++ [EvRead a (u32 v)])).

Definition write32 (a v : Z) : M unit :=
  fun m => Ret tt (mkMachine (st32 (ram m) a v) (dev m)
                             (trace m ++ [EvWrite a (u32 v)])).

Definition write16 (a v : Z) : M unit :=
  fun m => Ret tt (mkMachine (st16 (ram m) a v) (dev m)
                             (trace m ++ [EvWrite16 a (u16 v)])).

Definition memset (a c : Z) (n : nat) : M unit :=
  fun m => Ret tt (mkMachine (fill (ram m) a c n) (dev m)
                             (trace m ++ [EvMemset a c n])).

(** Modelled from the spec: [kprintf], the console sink that accepts
    formatted text, is not among the sources at hand.  One call emits one
    line, the format with its [%u] replaced by the argument in decimal. *)
Fixpoint format_u (fmt : string) (arg : Z) : string :=
  match fmt with
  | EmptyString => EmptyString
  | String c rest =>
      match c, rest with
      | "%"%char, String "u"%char rest' =>
          (NilZero.string_of_uint (N.to_uint (Z.to_N arg)) ++ rest')%string
      | _, _ => String c (format_u rest arg)
      end
  end.

Definition kprintf (fmt : string) (arg : Z) : M unit :=
  fun m => Ret tt (emit (EvLog (format_u fmt arg)) m).

Definition nl : string := String (ascii_of_nat 10) EmptyString.

(** Address of [hba_addr->ports[i]]. *)
Definition port_addr (hba i : Z) : Z := hba + off_ports L + i * sizeof_port L.

(** ** check_type *)

Definition check_type (port : Z) : M Z :=
  ssts <- read32 (port + off_ssts L) ;;
  let ipm := u8 (Z.land (Z.shiftr ssts 8) 0x0F) in
  let det := u8 (Z.land ssts 0x0F) in
  if negb (det =? HBA_PORT_DET_PRESENT) then ret AHCI_DEV_NULL
  else if negb (ipm =? HBA_PORT_IPM_ACTIVE) then ret AHCI_DEV_NULL
  else
    sig <- read32 (port + off_sig L) ;;
    if sig =? SATA_SIG_ATAPI then ret AHCI_DEV_SATAPI
    else if sig =? SATA_SIG_SEMB then ret AHCI_DEV_SEMB
    else if sig =? SATA_SIG_PM then ret AHCI_DEV_PM
    else ret AHCI_DEV_SATA.

(** ** probe_port *)

Definition report (dt i : Z) : M unit :=
  if dt =? AHCI_DEV_SATA then
    kprintf ("[AHCI] SATA drive found, port = %u" ++ nl) i
  else if dt =? AHCI_DEV_SATAPI then
    kprintf ("[AHCI] SATAPI drive found, port = %u" ++ nl) i
  else if dt =? AHCI_DEV_SEMB then
    kprintf ("[AHCI] SEMB drive found, port = %u" ++ nl) i
  else if dt =? AHCI_DEV_PM then
    kprintf ("[AHCI] PM drive found, port = %u" ++ nl) i
  else ret tt.

(** The body of [for (uint8_t i = 0; i < 32; i++)]; [n] counts the
    iterations that remain, [32 - i]. *)
Fixpoint probe_loop (n : nat) (hba i pi : Z) : M unit :=
  match n with
  | O => ret tt
  | S n' =>
      (if Z.land pi 1 =? 0 then ret tt
       else dt <- check_type (port_addr hba i) ;; report dt i) ;;;
      probe_loop n' hba (u8 (i + 1)) (Z.shiftr pi 1)
  end.

Definition probe_port (hba : Z) : M unit :=
  pi <- read32 (hba + off_pi L) ;;
  probe_loop 32 hba 0 pi.

(** ** start_cmd *)

(** [while (port->cmd & (1 << 15));] *)
Fixpoint start_wait (fuel : nat) (port : Z) : M unit :=
  match fuel with
  | O => fun m => Hang m
  | S fuel' =>
      v <- poll32 (port + off_cmd L) ;;
      if Z.land v (Z.shiftl 1 15) =? 0 then ret tt
      else start_wait fuel' port
  end.

Definition start_cmd (fuel : nat) (port : Z) : M unit :=
  start_wait fuel port ;;;
  v <- poll32 (port + off_cmd L) ;;
  write32 (port + off_cmd L) (Z.lor v (Z.shiftl 1 4)) ;;;  (* set FRE *)
  v <- poll32 (port + off_cmd L) ;;
  write32 (port + off_cmd L) (Z.lor v 1).                   (* set ST  *)

(** ** stop_cmd *)

Definition stop_cmd_clear (port : Z) : M unit :=
  v <- poll32 (port + off_cmd L) ;;
  write32 (port + off_cmd L) (Z.land v (Z.lnot 1)) ;;;               (* clear ST  *)
  v <- poll32 (port + off_cmd L) ;;
  write32 (port + off_cmd L) (Z.land v (Z.lnot (Z.shiftl 1 4))).     (* clear FRE *)

(** The [for (;;)] loop: each [continue] starts the next iteration, and
    the two tests read [port->cmd] separately. *)
Fixpoint stop_wait (fuel : nat) (port : Z) : M unit :=
  match fuel with
  | O => fun m => Hang m
  | S fuel' =>
      v <- poll32 (port + off_cmd L) ;;
      if negb (Z.land v (Z.shiftl 1 14) =? 0) then stop_wait fuel' port
      else
        w <- poll32 (port + off_cmd L) ;;
        if negb (Z.land w (Z.shiftl 1 15) =? 0) then stop_wait fuel' port
        else ret tt
  end.

Definition stop_cmd (fuel : nat) (port : Z) : M unit :=
  stop_cmd_clear port ;;; stop_wait fuel port.

(** ** port_rebase *)

(** Values assigned to [port->clb] and [port->fb] for port [i]. *)
Definition clb_base (i : Z) : Z := AHCI_BASE + Z.shiftl i 10.
Definition fb_base  (i : Z) : Z := AHCI_BASE + Z.shiftl 32 10 + Z.shiftl i 8.

(** Value assigned to [cmd_header[i].ctba].  The [i] of this expression is
    the variable of the inner loop, which hides the port index of the
    outer loop: the port index does not occur in it. *)
Definition ctba_base (i : Z) : Z :=
  AHCI_BASE + Z.shiftl 40 10 + Z.shiftl i 13 + Z.shiftl i 8.

(** The inner [for (uint8_t i = 0; i < 32; i++)] over the command headers. *)
Fixpoint rebase_headers (n : nat) (cmd_header i : Z) : M unit :=
  match n with
  | O => ret tt
  | S n' =>
      let hdr := cmd_header + i * sizeof_cmd_header L in
      write16 (hdr + off_prdtl L) 8 ;;;
      write32 (hdr + off_ctba L) (ctba_base i) ;;;
      write32 (hdr + off_ctbau L) 0 ;;;
      memset (hdr + off_ctba L) 0 256 ;;;
      rebase_headers n' cmd_header (u8 (i + 1))
  end.

(** The body of [if (pi & 1)] for port [i]. *)
Definition rebase_port (fuel : nat) (hba i : Z) : M unit :=
  let port := port_addr hba i in
  stop_cmd fuel port ;;;
  write32 (port + off_clb L) (clb_base i) ;;;
  write32 (port + off_clbu L) 0 ;;;
  memset (port + off_clb L) 0 1024 ;;;
  write32 (port + off_fb L) (fb_base i) ;;;
  write32 (port + off_fbu L) 0 ;;;
  memset (port + off_fb L) 0 256 ;;;
  cmd_header <- read32 (port + off_clb L) ;;
  rebase_headers 32 cmd_header 0 ;;;
  start_cmd fuel port.

Fixpoint rebase_loop (n fuel : nat) (hba i pi : Z) : M unit :=
  match n with
  | O => ret tt
  | S n' =>
      (if Z.land pi 1 =? 0 then ret tt else rebase_port fuel hba i) ;;;
      rebase_loop n' fuel hba (u8 (i + 1)) (Z.shiftr pi 1)
  end.

Definition port_rebase (fuel : nat) (hba : Z) : M unit :=
  pi <- read32 (hba + off_pi L) ;;
  rebase_loop 32 fuel hba 0 pi.

(** ** init_ahci *)

(** Modelled from the spec: [kprintf] again, here with one [%lx] argument,
    printed in lower-case hexadecimal, and with no argument at all. *)
Fixpoint format_lx (fmt : string) (arg : Z) : string :=
  match fmt with
  | EmptyString => EmptyString
  | String c rest =>
      match c, rest with
      | "%"%char, String "l"%char (String "x"%char rest') =>
          (HexadecimalString.NilZero.string_of_uint
             (N.to_hex_uint (Z.to_N arg)) ++ rest')%string
      | _, _ => String c (format_lx rest arg)
      end
  end.

Definition kprintf_lx (fmt : string) (arg : Z) : M unit :=
  fun m => Ret tt (emit (EvLog (format_lx fmt arg)) m).

Definition kprintf0 (msg : string) : M unit :=
  fun m => Ret tt (emit (EvLog msg) m).

Definition init_ahci (fuel : nat) (hba_addr : Z) : M unit :=
  kprintf_lx ("[AHCI] ABAR = 0x%lx, reconfiguring AHCI memory" ++ nl)
             hba_addr ;;;
  port_rebase fuel hba_addr ;;;
  kprintf0 ("[AHCI] AHCI memory spaces configured, enumerating devices" ++ nl) ;;;
  probe_port hba_addr ;;;
  kprintf0 ("[AHCI] drive enumeration completed" ++ nl).

(** ** Handling a list of ports in turn *)

(** [rebase_port] for each port of the list, from left to right; a port
    whose engine wait does not end ends the run. *)
Fixpoint rebase_ports (fuel : nat) (hba : Z) (ports : list Z) : M unit :=
  match ports with
  | [] => ret tt
  | i :: rest => rebase_port fuel hba i ;;; rebase_ports fuel hba rest
  end.

(** ** Consecutive polls of a command register *)

(** The value the next poll of the register at [a] returns, and the
    machine after that poll. *)
Definition poll_value (a : Z) (m : machine) : Z :=
  u32 (fst (rm_read R a (ld32 (ram m) a) (dev m))).

Definition poll_step (a : Z) (m : machine) : machine := final (poll32 a m).

(** The value returned by the poll number [n] (counted from 0) of an
    uninterrupted series of polls started on [m]. *)
Fixpoint nth_poll (n : nat) (a : Z) (m : machine) : Z :=
  match n with
  | O => poll_value a m
  | S k => nth_poll k a (poll_step a m)
  end.

(** FIS-receive-running (bit 14) and command-list-running (bit 15) are
    both clear in [v]. *)
Definition idle (v : Z) : Prop :=
  Z.testbit v 14 = false /\ Z.testbit v 15 = false.

(** From poll [N] on both bits read clear. *)
Definition settles (N : nat) (a : Z) (m : machine) : Prop :=
  forall n, (N <= n)%nat -> idle (nth_poll n a m).

(** A bit that has read clear reads clear on the next poll: the adapter
    clears the running bits, nothing sets them again. *)
Definition stays_clear (a : Z) (m : machine) : Prop :=
  forall n b, b = 14 \/ b = 15 ->
    Z.testbit (nth_poll n a m) b = false ->
    Z.testbit (nth_poll (S n) a m) b = false.

(** The program has just left the wait of [stop_cmd]: the last two
    accesses on record are polls, the first read bit 14 clear and the
    second read bit 15 clear. *)
Definition exit_polls (a : Z) (m : machine) : Prop :=
  exists pre v w, trace m = pre ++ [EvRead a v; EvRead a w] /\
    Z.testbit v 14 = false /\ Z.testbit w 15 = false.

(** The program has just returned with both bits clear: the last access
    on record is a poll that read them clear, and so would the next. *)
Definition returned_idle (a : Z) (m : machine) : Prop :=
  (exists pre v, trace m = pre ++ [EvRead a v] /\ idle v) /\
  idle (poll_value a m).

End Driver.

Arguments Ret {R A} a m.
Arguments Hang {R A} m.
Arguments ram {R} m.
Arguments dev {R} m.
Arguments trace {R} m.
Arguments mkMachine {R} ram dev trace.
Arguments final {R A} r.
Arguments ret {R A} a m.
Arguments bind {R A B} p f m.
Arguments emit {R} e m.
Arguments extend {R} m evs.

(** ** Reference definitions

    The functions below restate, on values, what the specification says the
    driver computes; the theorems compare the driver with them. *)

(** Device-detection field, status bits 0-3. *)
Definition det_field (ssts : Z) : Z := Z.land ssts 0x0F.

(** Interface-power-management field, status bits 8-11. *)
Definition ipm_field (ssts : Z) : Z := Z.land (Z.shiftr ssts 8) 0x0F.

(** The classification table of the specification. *)
Definition classify (det ipm sig : Z) : Z :=
  if (det =? 3) && (ipm =? 1) then
    if sig =? SATA_SIG_ATAPI then AHCI_DEV_SATAPI
    else if sig =? SATA_SIG_SEMB then AHCI_DEV_SEMB
    else if sig =? SATA_SIG_PM then AHCI_DEV_PM
    else AHCI_DEV_SATA
  else AHCI_DEV_NULL.

(** Classification of the port at [port], read from the memory [mem]. *)
Definition port_class (L : layout) (mem : memory) (port : Z) : Z :=
  let ssts := ld32 mem (port + off_ssts L) in
  classify (det_field ssts) (ipm_field ssts) (ld32 mem (port + off_sig L)).

(** The register reads of one classification: the status word, and the
    signature when the status word announces an active device. *)
Definition check_events (L : layout) (mem : memory) (port : Z) : list event :=
  let ssts := ld32 mem (port + off_ssts L) in
  EvRead (port + off_ssts L) ssts ::
  (if (det_field ssts =? 3) && (ipm_field ssts =? 1)
   then [EvRead (port + off_sig L) (ld32 mem (port + off_sig L))]
   else []).

Definition type_name (dt : Z) : option string :=
  if dt =? AHCI_DEV_SATA then Some "SATA"%string
  else if dt =? AHCI_DEV_SATAPI then Some "SATAPI"%string
  else if dt =? AHCI_DEV_SEMB then Some "SEMB"%string
  else if dt =? AHCI_DEV_PM then Some "PM"%string
  else None.

Definition decimal (i : Z) : string :=
  NilZero.string_of_uint (N.to_uint (Z.to_N i)).

(** A console line as [kprintf] prints it: the driver's tag, the message
    and a line feed. *)
Definition tagged (msg : string) : string :=
  ("[AHCI] " ++ msg ++ nl)%string.

Definition found_line (name : string) (i : Z) : string :=
  tagged (name ++ " drive found, port = " ++ decimal i).

Definition report_events (dt i : Z) : list event :=
  match type_name dt with
  | Some name => [EvLog (found_line name i)]
  | None => []
  end.

(** What visiting port [i] leaves in the record. *)
Definition visit (L : layout) (mem : memory) (hba i : Z) : list event :=
  check_events L mem (port_addr L hba i)
  ++ report_events (port_class L mem (port_addr L hba i)) i.

Definition port_indices : list Z := map Z.of_nat (seq 0 32).

Definition log_lines (evs : list event) : list string :=
  flat_map (fun e => match e with EvLog s => [s] | _ => [] end) evs.

(** An event is a read of the status or signature register of a port. *)
Definition status_read (L : layout) (hba : Z) (e : event) : Prop :=
  exists i v, 0 <= i < 32 /\
    (e = EvRead (port_addr L hba i + off_ssts L) v \/
     e = EvRead (port_addr L hba i + off_sig L) v).

Definition is_log (e : event) : Prop := exists s, e = EvLog s.

(** The port indices [i], [i + 1], ... taken [n] at a time. *)
Fixpoint zrange (i : Z) (n : nat) : list Z :=
  match n with
  | O => []
  | S k => i :: zrange (i + 1) k
  end.

(** Everything the header loop does, for whichever port it runs: the
    events depend on the address of the command list and on the slot, and
    on nothing else. *)
Definition header_events (L : layout) (cmd_header i : Z) : list event :=
  let hdr := cmd_header + i * sizeof_cmd_header L in
  [EvWrite16 (hdr + off_prdtl L) 8;
   EvWrite (hdr + off_ctba L) (u32 (ctba_base i));
   EvWrite (hdr + off_ctbau L) 0;
   EvMemset (hdr + off_ctba L) 0 256].

(** What [rebase_port] does for port [i] between stopping and restarting
    the engine, the value read back from [port->clb] being 0. *)
Definition layout_events (L : layout) (hba i : Z) : list event :=
  let port := port_addr L hba i in
  [EvWrite  (port + off_clb L) (u32 (clb_base i));
   EvWrite  (port + off_clbu L) 0;
   EvMemset (port + off_clb L) 0 1024;
   EvWrite  (port + off_fb L) (u32 (fb_base i));
   EvWrite  (port + off_fbu L) 0;
   EvMemset (port + off_fb L) 0 256;
   EvRead   (port + off_clb L) 0]
  ++ flat_map (header_events L 0) (zrange 0 32).

(** ** Address ranges *)

(** The byte ranges [a, a + n) and [b, b + k) share no byte. *)
Definition disjoint (a n b k : Z) : Prop := a + n <= b \/ b + k <= a.

(** ** Concrete machines

    An adapter mapped at [hba0] with the register map of the AHCI
    specification, used to run the driver on definite inputs. *)

Definition hba0 : Z := 0xFEBF0000.

Definition blank : memory := fun _ => 0.

(** Address of port [i] of the adapter at [hba0]. *)
Definition port0 (i : Z) : Z := port_addr ahci_layout hba0 i.

(** Ports 0 and 1 implemented, all engines idle, memory otherwise zero. *)
Definition two_ports : machine ram_model :=
  @mkMachine ram_model (st32 blank (hba0 + off_pi ahci_layout) 3) tt [].

(** Port 0 implemented and idle.  The first byte of the scratch region
    holds 0xAA, and the signature register of port 1, which is not
    implemented, holds the SATA signature. *)
Definition one_port : machine ram_model :=
  @mkMachine ram_model
    (st32 (st8 (st32 blank (hba0 + off_pi ahci_layout) 1) AHCI_BASE 0xAA)
          (port0 1 + off_sig ahci_layout) SATA_SIG_ATA)
    tt [].

(** The end-to-end scenario of the specification: mask 0b101, a SATA
    drive on port 0 and a SATAPI drive on port 2, both with detection 3
    and power management 1. *)
Definition scenario : machine ram_model :=
  @mkMachine ram_model
    (st32 (st32 (st32 (st32 (st32 blank
       (hba0 + off_pi ahci_layout) 5)
       (port0 0 + off_ssts ahci_layout) 0x113)
       (port0 0 + off_sig ahci_layout) SATA_SIG_ATA)
       (port0 2 + off_ssts ahci_layout) 0x113)
       (port0 2 + off_sig ahci_layout) SATA_SIG_ATAPI)
    tt [].

(** Port 0 with start and FIS-receive-enable set, on the simulated adapter
    that clears the running bits at the fourth poll. *)
Definition spinning : machine countdown_model :=
  @mkMachine countdown_model (st32 blank (port0 0 + off_cmd ahci_layout) 0x11) 3%nat [].

Definition returned {R A} (r : result R A) : bool :=
  match r with Ret _ _ => true | Hang _ => false end.

Definition ld16 (mem : memory) (a : Z) : Z :=
  ld8 mem a + 2 ^ 8 * ld8 mem (a + 1).

(** The values stored by 32-bit writes to the address [a], oldest first. *)
Definition writes_to (a : Z) (evs : list event) : list Z :=
  flat_map (fun e => match e with
                     | EvWrite b v => if b =? a then [v] else []
                     | _ => []
                     end) evs.

(** The [memset] calls on record whose range contains the byte at [x]. *)
Definition memsets_over (x : Z) (evs : list event) : list event :=
  filter (fun e => match e with
                   | EvMemset a _ n => (a <=? x) && (x <? a + Z.of_nat n)
                   | _ => false
                   end) evs.

(** ** Further reference definitions *)

(** The fields of a command header in the order the driver relies on:
    the length field lies before the command-table base, whose upper half
    follows and ends inside the header and inside the 256 bytes cleared
    from the base on. *)
Definition header_ok (L : layout) : Prop :=
  0 <= off_prdtl L /\ off_prdtl L + 2 <= off_ctba L /\
  off_ctba L + 4 <= off_ctbau L /\ off_ctbau L + 4 <= sizeof_cmd_header L /\
  off_ctbau L + 4 <= off_ctba L + 256.

(** The bytes from the length field of header [s] of the command list at
    [c] to the end of the range cleared for that header. *)
Definition in_header (L : layout) (c s x : Z) : Prop :=
  c + s * sizeof_cmd_header L + off_prdtl L <= x
    < c + s * sizeof_cmd_header L + off_ctba L + 256.

(** The bytes the header loop reaches under the AHCI register map when
    the command list is taken to be at address 0. *)
Definition low (x : Z) : Prop := 2 <= x < 1256.

(** [v] is a 32-bit value. *)
Definition in32 (v : Z) : Prop := u32 v = v.

Definition hexadecimal (v : Z) : string :=
  HexadecimalString.NilZero.string_of_uint (N.to_hex_uint (Z.to_N v)).

(** The line [init_ahci] starts with and its two progress lines. *)
Definition abar_line (hba : Z) : string :=
  ("[AHCI] ABAR = 0x" ++ hexadecimal hba
   ++ ", reconfiguring AHCI memory" ++ nl)%string.

Definition configured_line : string :=
  tagged "AHCI memory spaces configured, enumerating devices".

Definition completed_line : string := tagged "drive enumeration completed".

(** The lines [probe_port] prints on the memory [mem]. *)
Definition found_lines (L : layout) (mem : memory) (hba : Z) : list string :=
  log_lines
    (flat_map (fun i => if Z.testbit (ld32 mem (hba + off_pi L)) i
                        then visit L mem hba i else [])
              port_indices).

(** A program that prints nothing. *)
Definition quiet {R : reg_model} {A : Type} (p : M R A) : Prop :=
  forall m, exists evs,
    trace (final (p m)) = trace m ++ evs /\ log_lines evs = [].

(** Zeroed memory in front of the two adapters above, no read made yet. *)
Definition flickering : machine flicker_model :=
  @mkMachine flicker_model blank 0%nat [].


(** Port 0 of an adapter whose command list never stops running. *)
Definition jammed : machine stuck_model :=
  @mkMachine stuck_model blank tt [].

(** ** Arithmetic facts *)

Lemma u8_small : forall v, 0 <= v < 256 -> u8 v = v.
Proof. intros v Hv. unfold u8. apply Z.mod_small. lia. Qed.

Lemma ld8_range : forall mem a, 0 <= ld8 mem a < 256.
Proof. intros. unfold ld8, u8. apply Z.mod_pos_bound. lia. Qed.

Lemma ld32_range : forall mem a, 0 <= ld32 mem a < 2 ^ 32.
Proof.
  intros mem a. unfold ld32.
  pose proof (ld8_range mem a). pose proof (ld8_range mem (a + 1)).
  pose proof (ld8_range mem (a + 2)). pose proof (ld8_range mem (a + 3)).
  lia.
Qed.

Lemma land_15 : forall x, Z.land x 0x0F = x mod 16.
Proof. intro x. change 0x0F with (Z.ones 4). now rewrite Z.land_ones by lia. Qed.

Lemma u8_land_15 : forall x, u8 (Z.land x 0x0F) = Z.land x 0x0F.
Proof.
  intro x. apply u8_small. rewrite land_15.
  pose proof (Z.mod_pos_bound x 16). lia.
Qed.

Lemma land_1_testbit : forall x, (Z.land x 1 =? 0) = negb (Z.testbit x 0).
Proof.
  intro x. change 1 with (Z.ones 1). rewrite Z.land_ones by lia.
  change (2 ^ 1) with 2. rewrite <- Z.bit0_mod.
  destruct (Z.testbit x 0); reflexivity.
Qed.

Lemma land_bit_testbit : forall x k, 0 <= k ->
  (Z.land x (Z.shiftl 1 k) =? 0) = negb (Z.testbit x k).
Proof.
  intros x k Hk. rewrite Z.shiftl_1_l.
  assert (E : Z.land x (2 ^ k) = if Z.testbit x k then 2 ^ k else 0).
  { apply Z.bits_inj'. intros n Hn. rewrite Z.land_spec, Z.pow2_bits_eqb by lia.
    destruct (Z.eqb_spec k n) as [->|Hne].
    - destruct (Z.testbit x n) eqn:E.
      + now rewrite Z.pow2_bits_true.
      + now rewrite Z.bits_0.
    - rewrite andb_false_r. destruct (Z.testbit x k).
      + rewrite Z.pow2_bits_false; auto.
      + now rewrite Z.bits_0. }
  rewrite E. destruct (Z.testbit x k); simpl.
  - apply Z.eqb_neq. pose proof (Z.pow_pos_nonneg 2 k). lia.
  - reflexivity.
Qed.

Section Properties.

Variable L : layout.
Variable R : reg_model.

Lemma extend_nil : forall m : machine R, extend m [] = m.
Proof. intros [r d t]. unfold extend. simpl. now rewrite app_nil_r. Qed.

Lemma extend_app : forall (m : machine R) e1 e2,
  extend (extend m e1) e2 = extend m (e1 ++ e2).
Proof. intros. unfold extend. simpl. now rewrite app_assoc. Qed.

(** *** check_type *)

Lemma check_type_run : forall port m,
  check_type L R port m =
  Ret (port_class L (ram m) port) (extend m (check_events L (ram m) port)).
Proof.
  intros port m. unfold check_type, bind, read32, port_class, check_events.
  cbv zeta. rewrite !u8_land_15. fold (det_field (ld32 (ram m) (port + off_ssts L))).
  fold (ipm_field (ld32 (ram m) (port + off_ssts L))).
  unfold classify, HBA_PORT_DET_PRESENT, HBA_PORT_IPM_ACTIVE.
  destruct (det_field _ =? 3); simpl; [|reflexivity].
  destruct (ipm_field _ =? 1); simpl; [|reflexivity].
  unfold emit, extend, ret; simpl.
  rewrite <- app_assoc. simpl.
  destruct (_ =? SATA_SIG_ATAPI); [reflexivity|].
  destruct (_ =? SATA_SIG_SEMB); [reflexivity|].
  destruct (_ =? SATA_SIG_PM); reflexivity.
Qed.

(** *** probe_port *)

Lemma report_run : forall dt i m,
  report R dt i m = Ret tt (extend m (report_events dt i)).
Proof.
  intros dt i m. unfold report, report_events, type_name.
  destruct (dt =? AHCI_DEV_SATA); [reflexivity|].
  destruct (dt =? AHCI_DEV_SATAPI); [reflexivity|].
  destruct (dt =? AHCI_DEV_SEMB); [reflexivity|].
  destruct (dt =? AHCI_DEV_PM); [reflexivity|].
  unfold ret. now rewrite extend_nil.
Qed.

Lemma visit_run : forall hba i m,
  bind (check_type L R (port_addr L hba i)) (fun dt => report R dt i) m =
  Ret tt (extend m (visit L (ram m) hba i)).
Proof.
  intros hba i m. unfold bind. rewrite check_type_run, report_run.
  now rewrite extend_app.
Qed.

Lemma zrange_lower : forall n i k, In k (zrange i n) -> i <= k.
Proof.
  induction n as [|n IH]; intros i k Hin; simpl in Hin.
  - contradiction.
  - destruct Hin as [<-|Hin]; [lia|]. apply IH in Hin. lia.
Qed.

Lemma flat_map_agree : forall (A B : Type) (f g : A -> list B) l,
  (forall x, In x l -> f x = g x) -> flat_map f l = flat_map g l.
Proof.
  intros A B f g l. induction l as [|x l IH]; intros H; simpl.
  - reflexivity.
  - rewrite (H x) by now left. f_equal. apply IH. intros y Hy. apply H. now right.
Qed.

(** The sweep over the mask, started at port [i] with the mask already
    shifted [i] times. *)
Lemma probe_loop_run : forall n hba i pi m,
  0 <= i -> i + Z.of_nat n <= 255 ->
  probe_loop L R n hba i pi m =
  Ret tt (extend m (flat_map
            (fun k => if Z.testbit pi (k - i) then visit L (ram m) hba k else [])
            (zrange i n))).
Proof.
  induction n as [|n IH]; intros hba i pi m Hi Hn.
  - simpl. unfold ret. now rewrite extend_nil.
  - cbn [probe_loop zrange flat_map]. unfold bind at 1.
    rewrite land_1_testbit, Z.sub_diag.
    assert (Hu : u8 (i + 1) = i + 1) by (apply u8_small; lia).
    assert (Hshift : forall m' : machine R,
      ram m' = ram m ->
      flat_map (fun k => if Z.testbit (Z.shiftr pi 1) (k - (i + 1))
                         then visit L (ram m') hba k else []) (zrange (i + 1) n) =
      flat_map (fun k => if Z.testbit pi (k - i)
                         then visit L (ram m) hba k else []) (zrange (i + 1) n)).
    { intros m' Hm'. apply flat_map_agree. intros k Hk.
      apply zrange_lower in Hk. rewrite Z.shiftr_spec by lia. rewrite Hm'.
      now replace (k - (i + 1) + 1) with (k - i) by lia. }
    destruct (Z.testbit pi 0); cbn [negb].
    + rewrite visit_run, Hu, IH by lia. rewrite Hshift by reflexivity.
      now rewrite extend_app.
    + unfold ret. rewrite Hu, IH by lia. now rewrite Hshift by reflexivity.
Qed.

Lemma port_indices_zrange : port_indices = zrange 0 32.
Proof. reflexivity. Qed.

(** Everything [probe_port] does: one read of the ports-implemented
    register, then one visit per set bit, lowest port first. *)
Lemma probe_port_run : forall hba m,
  probe_port L R hba m =
  Ret tt (extend m
    (EvRead (hba + off_pi L) (ld32 (ram m) (hba + off_pi L)) ::
     flat_map (fun i => if Z.testbit (ld32 (ram m) (hba + off_pi L)) i
                        then visit L (ram m) hba i else [])
              port_indices)).
Proof.
  intros hba m. unfold probe_port, bind, read32. cbv zeta.
  rewrite probe_loop_run by (simpl; lia).
  unfold emit, extend. cbn [ram dev trace].
  rewrite <- app_assoc. cbn [app]. rewrite port_indices_zrange.
  rewrite (flat_map_agree _ _ _
    (fun i => if Z.testbit (ld32 (ram m) (hba + off_pi L)) i
              then visit L (ram m) hba i else [])).
  - reflexivity.
  - intros k _. now rewrite Z.sub_0_r.
Qed.

Lemma classify_values : forall det ipm sig,
  classify det ipm sig = AHCI_DEV_NULL \/
  exists name, type_name (classify det ipm sig) = Some name.
Proof.
  intros det ipm sig. unfold classify.
  destruct ((det =? 3) && (ipm =? 1)); [right|now left].
  destruct (sig =? SATA_SIG_ATAPI); [now exists "SATAPI"%string|].
  destruct (sig =? SATA_SIG_SEMB); [now exists "SEMB"%string|].
  destruct (sig =? SATA_SIG_PM); [now exists "PM"%string|].
  now exists "SATA"%string.
Qed.

Lemma log_lines_app : forall e1 e2,
  log_lines (e1 ++ e2) = log_lines e1 ++ log_lines e2.
Proof. intros. unfold log_lines. apply flat_map_app. Qed.

Lemma log_lines_check_events : forall mem port,
  log_lines (check_events L mem port) = [].
Proof.
  intros mem port. unfold check_events. cbv zeta.
  now destruct ((det_field _ =? 3) && (ipm_field _ =? 1)).
Qed.

Lemma log_lines_visit : forall mem hba i,
  log_lines (visit L mem hba i) =
  match type_name (port_class L mem (port_addr L hba i)) with
  | Some name => [found_line name i]
  | None => []
  end.
Proof.
  intros mem hba i. unfold visit.
  rewrite log_lines_app, log_lines_check_events. unfold report_events.
  now destruct (type_name _).
Qed.

Lemma mask_5_ports : forall (A : Type) (f : Z -> list A),
  flat_map (fun i => if Z.testbit 5 i then f i else []) port_indices = f 0 ++ f 2.
Proof. intros A f. simpl. now rewrite app_nil_r. Qed.

Lemma port_indices_range : forall i, In i port_indices -> 0 <= i < 32.
Proof.
  intros i Hi. unfold port_indices in Hi. apply in_map_iff in Hi.
  destruct Hi as [k [<- Hk]]. apply in_seq in Hk. lia.
Qed.

Lemma visit_only_reads_status : forall mem hba i, 0 <= i < 32 ->
  Forall (fun e => status_read L hba e \/ is_log e) (visit L mem hba i).
Proof.
  intros mem hba i Hi. unfold visit. apply Forall_app. split.
  - unfold check_events. cbv zeta. constructor.
    + left. exists i. eexists. split; [exact Hi|]. left. reflexivity.
    + destruct ((det_field _ =? 3) && (ipm_field _ =? 1)); constructor.
      * left. exists i. eexists. split; [exact Hi|]. right. reflexivity.
      * constructor.
  - unfold report_events. destruct (type_name _); constructor.
    + right. eexists. reflexivity.
    + constructor.
Qed.

(** *** Claims about check_type and probe_port *)

(** C4. [check_type] is a function of the detection field (status bits
    0-3), the power-management field (status bits 8-11) and the signature
    word only, and it changes neither memory nor the adapter.  When the
    detection field is not 3 or the power field is not 1 the answer is
    Absent whatever the signature; otherwise it is SATAPI, enclosure bridge
    or port multiplier exactly when the signature is the respective
    constant, and SATA for every other signature, the SATA constant
    included. *)
Theorem check_type_is_classify : forall port (m : machine R),
  let ssts := ld32 (ram m) (port + off_ssts L) in
  let sig := ld32 (ram m) (port + off_sig L) in
  (exists m',
     check_type L R port m =
       Ret (classify (det_field ssts) (ipm_field ssts) sig) m' /\
     ram m' = ram m /\ dev m' = dev m) /\
  (forall det ipm s, det <> 3 \/ ipm <> 1 -> classify det ipm s = AHCI_DEV_NULL) /\
  (forall s, classify 3 1 s = AHCI_DEV_SATAPI <-> s = SATA_SIG_ATAPI) /\
  (forall s, classify 3 1 s = AHCI_DEV_SEMB <-> s = SATA_SIG_SEMB) /\
  (forall s, classify 3 1 s = AHCI_DEV_PM <-> s = SATA_SIG_PM) /\
  (forall s, s <> SATA_SIG_ATAPI -> s <> SATA_SIG_SEMB -> s <> SATA_SIG_PM ->
             classify 3 1 s = AHCI_DEV_SATA) /\
  classify 3 1 SATA_SIG_ATA = AHCI_DEV_SATA.
Proof.
  intros port m ssts sig. split; [|split; [|split; [|split; [|split; [|split]]]]].
  - eexists. rewrite check_type_run. split; [reflexivity|]. split; reflexivity.
  - intros det ipm s H. unfold classify.
    destruct (Z.eqb_spec det 3); destruct (Z.eqb_spec ipm 1); simpl; try reflexivity.
    destruct H; contradiction.
  - intro s. unfold classify. simpl.
    destruct (Z.eqb_spec s SATA_SIG_ATAPI) as [->|H1]; [now split|].
    destruct (Z.eqb_spec s SATA_SIG_SEMB) as [->|H2]; [now split|].
    destruct (Z.eqb_spec s SATA_SIG_PM) as [->|H3]; now split.
  - intro s. unfold classify. simpl.
    destruct (Z.eqb_spec s SATA_SIG_ATAPI) as [->|H1]; [now split|].
    destruct (Z.eqb_spec s SATA_SIG_SEMB) as [->|H2]; [now split|].
    destruct (Z.eqb_spec s SATA_SIG_PM) as [->|H3]; now split.
  - intro s. unfold classify. simpl.
    destruct (Z.eqb_spec s SATA_SIG_ATAPI) as [->|H1]; [now split|].
    destruct (Z.eqb_spec s SATA_SIG_SEMB) as [->|H2]; [now split|].
    destruct (Z.eqb_spec s SATA_SIG_PM) as [->|H3]; now split.
  - intros s H1 H2 H3. unfold classify. simpl.
    destruct (Z.eqb_spec s SATA_SIG_ATAPI); [contradiction|].
    destruct (Z.eqb_spec s SATA_SIG_SEMB); [contradiction|].
    destruct (Z.eqb_spec s SATA_SIG_PM); [contradiction|reflexivity].
  - reflexivity.
Qed.

(** C5. For every value of the ports-implemented register, [probe_port]
    reads that register, then classifies exactly the ports whose bit is
    set, lowest index first, and does nothing for the others.  The visit of
    a port records one console line naming the detected type and the port
    index when the classification is not Absent, and none when it is. *)
Theorem probe_port_visits_set_bits : forall hba (m : machine R),
  let pi := ld32 (ram m) (hba + off_pi L) in
  probe_port L R hba m =
    Ret tt (extend m
      (EvRead (hba + off_pi L) pi ::
       flat_map (fun i => if Z.testbit pi i then visit L (ram m) hba i else [])
                port_indices)) /\
  (forall i,
     visit L (ram m) hba i =
       check_events L (ram m) (port_addr L hba i) ++
       match type_name (port_class L (ram m) (port_addr L hba i)) with
       | Some name => [EvLog (found_line name i)]
       | None => []
       end) /\
  (forall i,
     (port_class L (ram m) (port_addr L hba i) = AHCI_DEV_NULL /\
      log_lines (visit L (ram m) hba i) = []) \/
     (port_class L (ram m) (port_addr L hba i) <> AHCI_DEV_NULL /\
      exists name, log_lines (visit L (ram m) hba i) = [found_line name i])).
Proof.
  intros hba m pi. split; [apply probe_port_run|]. split.
  - intro i. reflexivity.
  - intro i. rewrite log_lines_visit. unfold port_class.
    destruct (classify_values
                (det_field (ld32 (ram m) (port_addr L hba i + off_ssts L)))
                (ipm_field (ld32 (ram m) (port_addr L hba i + off_ssts L)))
                (ld32 (ram m) (port_addr L hba i + off_sig L))) as [H|[name H]].
    + left. rewrite H. split; reflexivity.
    + right. rewrite H. split; [|now exists name].
      intro E. rewrite E in H. discriminate H.
Qed.

(** C8. With ports-implemented equal to 0b101, port 0 showing detection 3,
    power 1 and the SATA signature, and port 2 showing detection 3, power 1
    and the SATAPI signature, [probe_port] prints exactly two lines, the
    driver's tag followed by "SATA drive found, port = 0" and by "SATAPI
    drive found, port = 2", in that order, and nothing for any other
    port. *)
Theorem probe_port_scenario : forall hba (m : machine R),
  ld32 (ram m) (hba + off_pi L) = 5 ->
  det_field (ld32 (ram m) (port_addr L hba 0 + off_ssts L)) = 3 ->
  ipm_field (ld32 (ram m) (port_addr L hba 0 + off_ssts L)) = 1 ->
  ld32 (ram m) (port_addr L hba 0 + off_sig L) = SATA_SIG_ATA ->
  det_field (ld32 (ram m) (port_addr L hba 2 + off_ssts L)) = 3 ->
  ipm_field (ld32 (ram m) (port_addr L hba 2 + off_ssts L)) = 1 ->
  ld32 (ram m) (port_addr L hba 2 + off_sig L) = SATA_SIG_ATAPI ->
  exists m' evs,
    probe_port L R hba m = Ret tt m' /\
    trace m' = trace m ++ evs /\
    log_lines evs = [tagged "SATA drive found, port = 0";
                     tagged "SATAPI drive found, port = 2"].
Proof.
  intros hba m Hpi Hd0 Hp0 Hs0 Hd2 Hp2 Hs2.
  rewrite probe_port_run, Hpi, mask_5_ports.
  eexists. eexists. split; [reflexivity|]. split; [reflexivity|].
  change (log_lines (?e :: ?l)) with (log_lines [e] ++ log_lines l).
  rewrite log_lines_app, !log_lines_visit. unfold port_class.
  rewrite Hd0, Hp0, Hs0, Hd2, Hp2, Hs2. reflexivity.
Qed.

(** C9. [probe_port] stores nothing: memory, and with it every adapter
    and port register and all scratch memory, is the same afterwards, and so
    is the state of the register model.  Its first access is the one read
    of the ports-implemented register; every later event is a read of the
    status or the signature register of some port, or a console line. *)
Theorem probe_port_only_reads : forall hba (m : machine R),
  exists m' evs,
    probe_port L R hba m = Ret tt m' /\
    ram m' = ram m /\ dev m' = dev m /\
    trace m' =
      trace m ++ EvRead (hba + off_pi L) (ld32 (ram m) (hba + off_pi L)) :: evs /\
    Forall (fun e => status_read L hba e \/ is_log e) evs.
Proof.
  intros hba m. rewrite probe_port_run. eexists. eexists.
  split; [reflexivity|]. split; [reflexivity|]. split; [reflexivity|].
  split; [reflexivity|].
  apply Forall_flat_map. apply Forall_forall. intros i Hi.
  destruct (Z.testbit _ i); [|constructor].
  apply visit_only_reads_status. now apply port_indices_range.
Qed.

(** *** Polling *)

Lemma poll32_run : forall a (m : machine R),
  poll32 R a m = Ret (poll_value R a m) (poll_step R a m).
Proof.
  intros a m. unfold poll_step, poll_value, poll32.
  now destruct (rm_read R a (ld32 (ram m) a) (dev m)).
Qed.

Lemma poll_step_trace : forall a (m : machine R),
  trace (poll_step R a m) = trace m ++ [EvRead a (poll_value R a m)].
Proof.
  intros a m. unfold poll_step, poll_value, poll32.
  now destruct (rm_read R a (ld32 (ram m) a) (dev m)).
Qed.

Lemma settles_step : forall N a (m : machine R),
  settles R N a m -> settles R (pred N) a (poll_step R a m).
Proof.
  intros N a m H n Hn. apply (H (S n)). lia.
Qed.

Lemma stays_clear_step : forall a (m : machine R),
  stays_clear R a m -> stays_clear R a (poll_step R a m).
Proof.
  intros a m H n b Hb Hc. exact (H (S n) b Hb Hc).
Qed.

Lemma bit_test : forall v k, 0 <= k ->
  negb (Z.land v (Z.shiftl 1 k) =? 0) = Z.testbit v k.
Proof. intros v k Hk. now rewrite land_bit_testbit, negb_involutive. Qed.

(** *** stop_cmd *)

Lemma stop_cmd_clear_returns : forall port (m : machine R),
  exists m1, stop_cmd_clear L R port m = Ret tt m1.
Proof.
  intros port m. unfold stop_cmd_clear, bind, write32.
  rewrite poll32_run, poll32_run. eexists. reflexivity.
Qed.

(** The wait leaves once polls read both bits clear: a budget above the
    settling bound is enough. *)
Lemma stop_wait_terminates : forall fuel N port (m : machine R),
  settles R N (port + off_cmd L) m -> (N < fuel)%nat ->
  exists m', stop_wait L R fuel port m = Ret tt m'.
Proof.
  induction fuel as [|fuel IH]; intros N port m Hs Hf; [lia|].
  cbn [stop_wait]. unfold bind at 1. rewrite poll32_run, bit_test by lia.
  destruct (Z.testbit (poll_value R (port + off_cmd L) m) 14) eqn:E14.
  - assert (N <> 0)%nat.
    { intros ->. destruct (Hs 0%nat) as [H _]; [lia|].
      cbn [nth_poll] in H. congruence. }
    apply (IH (pred N)); [now apply settles_step|lia].
  - unfold bind. rewrite poll32_run, bit_test by lia.
    destruct (Z.testbit (poll_value R (port + off_cmd L)
                (poll_step R (port + off_cmd L) m)) 15) eqn:E15.
    + assert (1 < N)%nat.
      { destruct (Nat.le_gt_cases N 1) as [Hle|]; [|assumption].
        destruct (Hs 1%nat Hle) as [_ H]. cbn [nth_poll] in H. congruence. }
      apply (IH (pred (pred N))); [now do 2 apply settles_step|lia].
    + eexists. reflexivity.
Qed.

(** Whatever the register model and the budget, the wait only returns
    right after a poll that read bit 14 clear followed by a poll that read
    bit 15 clear. *)
Lemma stop_wait_exits : forall fuel port (m m' : machine R),
  stop_wait L R fuel port m = Ret tt m' ->
  exit_polls R (port + off_cmd L) m'.
Proof.
  induction fuel as [|fuel IH]; intros port m m' Hr; [discriminate Hr|].
  cbn [stop_wait] in Hr. unfold bind at 1 in Hr.
  rewrite poll32_run, bit_test in Hr by lia.
  set (a := port + off_cmd L) in *.
  destruct (Z.testbit (poll_value R a m) 14) eqn:E14.
  - now apply (IH port (poll_step R a m)).
  - unfold bind in Hr. rewrite poll32_run, bit_test in Hr by lia.
    destruct (Z.testbit (poll_value R a (poll_step R a m)) 15) eqn:E15.
    + now apply (IH port (poll_step R a (poll_step R a m))).
    + injection Hr as <-.
      exists (trace m), (poll_value R a m), (poll_value R a (poll_step R a m)).
      split; [|now split].
      rewrite !poll_step_trace, <- app_assoc. reflexivity.
Qed.

(** When in addition a bit that has read clear stays clear, the wait only
    returns right after a poll that read both bits clear. *)
Lemma stop_wait_safe : forall fuel port (m m' : machine R),
  stays_clear R (port + off_cmd L) m ->
  stop_wait L R fuel port m = Ret tt m' ->
  returned_idle R (port + off_cmd L) m'.
Proof.
  induction fuel as [|fuel IH]; intros port m m' Hk Hr; [discriminate Hr|].
  cbn [stop_wait] in Hr. unfold bind at 1 in Hr.
  rewrite poll32_run, bit_test in Hr by lia.
  set (a := port + off_cmd L) in *.
  destruct (Z.testbit (poll_value R a m) 14) eqn:E14.
  - apply (IH port (poll_step R a m)); [now apply stays_clear_step|assumption].
  - unfold bind in Hr. rewrite poll32_run, bit_test in Hr by lia.
    destruct (Z.testbit (poll_value R a (poll_step R a m)) 15) eqn:E15.
    + apply (IH port (poll_step R a (poll_step R a m)));
        [now do 2 apply stays_clear_step|assumption].
    + injection Hr as <-.
      assert (F1 : Z.testbit (poll_value R a (poll_step R a m)) 14 = false).
      { apply (Hk 0%nat 14); [now left|exact E14]. }
      split.
      * exists (trace (poll_step R a m)), (poll_value R a (poll_step R a m)).
        split; [apply poll_step_trace|]. now split.
      * split.
        -- apply (Hk 1%nat 14); [now left|exact F1].
        -- apply (Hk 1%nat 15); [now right|exact E15].
Qed.

(** *** start_cmd *)

Lemma u32_lor : forall v c, 0 <= c < 2 ^ 32 ->
  u32 (Z.lor (u32 v) c) = Z.lor (u32 v) c.
Proof.
  intros v c Hc. unfold u32.
  rewrite <- (Z.mod_small c (2 ^ 32)) at 2 by lia.
  rewrite <- (Z.mod_small c (2 ^ 32)) at 1 by lia.
  rewrite <- !Z.land_ones by lia.
  rewrite <- Z.land_lor_distr_l, <- Z.land_assoc, Z.land_diag. reflexivity.
Qed.


(** The wait of [start_cmd]: a run of polls that read command-list-running
    set, closed, when the wait is left, by one poll that read it clear. *)
Lemma start_wait_shape : forall fuel port (m : machine R),
  exists busy,
    Forall (fun v => Z.testbit v 15 = true) busy /\
    match start_wait L R fuel port m with
    | Hang m' =>
        ram m' = ram m /\
        trace m' = trace m ++ map (EvRead (port + off_cmd L)) busy
    | Ret _ m' =>
        ram m' = ram m /\
        exists free, Z.testbit free 15 = false /\
          trace m' = trace m ++ map (EvRead (port + off_cmd L)) busy
                             ++ [EvRead (port + off_cmd L) free]
    end.
Proof.
  induction fuel as [|fuel IH]; intros port m.
  - exists []. split; [constructor|]. cbn. now rewrite app_nil_r.
  - cbn [start_wait]. unfold bind. rewrite poll32_run.
    set (a := port + off_cmd L) in *.
    rewrite land_bit_testbit by lia.
    destruct (Z.testbit (poll_value R a m) 15) eqn:E; cbn [negb].
    + destruct (IH port (poll_step R a m)) as [busy [Hb Hm]].
      exists (poll_value R a m :: busy). split; [now constructor|].
      fold a in Hm.
      assert (Hram : ram (poll_step R a m) = ram m).
      { unfold poll_step, poll32. now destruct (rm_read R a _ _). }
      destruct (start_wait L R fuel port (poll_step R a m)) as [[] m'|m'].
      * destruct Hm as [Hr [free [Hf Ht]]]. split; [congruence|].
        exists free. split; [assumption|].
        rewrite Ht, poll_step_trace, <- app_assoc. reflexivity.
      * destruct Hm as [Hr Ht]. split; [congruence|].
        rewrite Ht, poll_step_trace, <- app_assoc. reflexivity.
    + exists []. split; [constructor|]. unfold ret. split.
      * unfold poll_step, poll32. now destruct (rm_read R a _ _).
      * exists (poll_value R a m). split; [assumption|].
        now rewrite poll_step_trace.
Qed.

(** [start_cmd] returns once the polls read command-list-running clear:
    a budget above the bound is enough. *)
Lemma start_cmd_returns : forall fuel N port (m : machine R),
  (forall n, (N <= n)%nat ->
     Z.testbit (nth_poll R n (port + off_cmd L) m) 15 = false) ->
  (N < fuel)%nat ->
  exists m', start_cmd L R fuel port m = Ret tt m'.
Proof.
  intros fuel N port m Hs Hf.
  assert (W : exists m1, start_wait L R fuel port m = Ret tt m1).
  { revert N m Hs Hf. induction fuel as [|fuel IH]; intros N m Hs Hf; [lia|].
    cbn [start_wait]. unfold bind. rewrite poll32_run.
    rewrite land_bit_testbit by lia.
    destruct (Z.testbit (poll_value R (port + off_cmd L) m) 15) eqn:E;
      cbn [negb].
    - assert (N <> 0)%nat.
      { intros ->. specialize (Hs 0%nat (Nat.le_refl 0)).
        cbn [nth_poll] in Hs. congruence. }
      apply (IH (pred N)); [|lia].
      intros n Hn. apply (Hs (S n)). lia.
    - eexists. reflexivity. }
  destruct W as [m1 H1]. unfold start_cmd. unfold bind at 1. rewrite H1.
  unfold bind, write32. rewrite poll32_run.
  match goal with
  | |- context [poll32 R ?a ?m3] => rewrite (poll32_run a m3)
  end.
  eexists. reflexivity.
Qed.

(** *** Claims about the command engine *)

(** C6, as amended.  Take any register model in which the
    FIS-receive-running bit (14) and the command-list-running bit (15) of
    the port's command register both read clear from poll [N] of the wait
    on.  Then [stop_cmd] returns as soon as its poll budget exceeds [N].
    Whatever the budget, it returns only right after two polls of which
    the first read bit 14 clear and the second read bit 15 clear: the two
    bits are tested on separate reads.  And when the adapter clears the
    bits for good, that is, a bit that has read clear is not set again,
    then at the moment [stop_cmd] returns its last poll has read both bits
    clear and a further poll reads both clear. *)
Theorem stop_cmd_returns_idle : forall N fuel port (m : machine R),
  settles R N (port + off_cmd L) (final (stop_cmd_clear L R port m)) ->
  (N < fuel)%nat ->
  (exists m', stop_cmd L R fuel port m = Ret tt m') /\
  (forall budget m',
     stop_cmd L R budget port m = Ret tt m' ->
     exit_polls R (port + off_cmd L) m') /\
  (stays_clear R (port + off_cmd L) (final (stop_cmd_clear L R port m)) ->
   forall budget m',
     stop_cmd L R budget port m = Ret tt m' ->
     returned_idle R (port + off_cmd L) m').
Proof.
  intros N fuel port m Hs Hf.
  destruct (stop_cmd_clear_returns port m) as [m1 H1].
  rewrite H1 in *. cbn [final] in *. split; [|split].
  - unfold stop_cmd, bind. rewrite H1. now apply (stop_wait_terminates fuel N).
  - intros budget m' Hr. unfold stop_cmd, bind in Hr. rewrite H1 in Hr.
    now apply (stop_wait_exits budget port m1).
  - intros Hk budget m' Hr. unfold stop_cmd, bind in Hr. rewrite H1 in Hr.
    now apply (stop_wait_safe budget port m1).
Qed.


End Properties.

(** ** The simulated adapter *)

Lemma countdown_nth_poll : forall n a (m : machine countdown_model),
  nth_poll countdown_model n a m =
  u32 (if (n <? dev m)%nat then Z.lor (ld32 (ram m) a) 0xC000
       else Z.land (ld32 (ram m) a) (Z.lnot 0xC000)).
Proof.
  induction n as [|n IH]; intros a [r d t].
  - cbn [nth_poll]. unfold poll_value. cbn [ram dev]. now destruct d.
  - cbn [nth_poll]. rewrite IH. unfold poll_step, poll32. cbn [ram dev].
    destruct d as [|d]; cbn [rm_read countdown_model final ram dev]; reflexivity.
Qed.

Lemma u32_testbit : forall v b, 0 <= b < 32 ->
  Z.testbit (u32 v) b = Z.testbit v b.
Proof. intros v b Hb. unfold u32. apply Z.mod_pow2_bits_low. lia. Qed.

Lemma countdown_bit : forall n a (m : machine countdown_model) b,
  b = 14 \/ b = 15 ->
  Z.testbit (nth_poll countdown_model n a m) b = (n <? dev m)%nat.
Proof.
  intros n a m b Hb. rewrite countdown_nth_poll, u32_testbit by lia.
  destruct (n <? dev m)%nat.
  - rewrite Z.lor_spec. destruct Hb as [->| ->]; apply orb_true_r.
  - rewrite Z.land_spec, Z.lnot_spec by lia.
    destruct Hb as [->| ->]; apply andb_false_r.
Qed.

(** The simulated adapter reads both running bits clear from the poll
    given by its counter on, and never sets a bit again. *)
Lemma countdown_settles : forall a (m : machine countdown_model),
  settles countdown_model (dev m) a m.
Proof.
  intros a m n Hn. split; rewrite countdown_bit by auto; apply Nat.ltb_ge; lia.
Qed.

Lemma countdown_stays_clear : forall a (m : machine countdown_model),
  stays_clear countdown_model a m.
Proof.
  intros a m n b Hb Hc. rewrite countdown_bit in * by assumption.
  apply Nat.ltb_ge in Hc. apply Nat.ltb_ge. lia.
Qed.

(** ** The layout computed by port_rebase *)

(** Command lists of distinct ports do not overlap. *)
Lemma clb_ranges_disjoint : forall i j,
  0 <= i < 32 -> 0 <= j < 32 -> i <> j ->
  disjoint (clb_base i) 1024 (clb_base j) 1024.
Proof.
  intros i j Hi Hj Hne. unfold disjoint, clb_base.
  rewrite !Z.shiftl_mul_pow2 by lia. change (2 ^ 10) with 1024. lia.
Qed.

(** FIS areas of distinct ports do not overlap. *)
Lemma fb_ranges_disjoint : forall i j,
  0 <= i < 32 -> 0 <= j < 32 -> i <> j ->
  disjoint (fb_base i) 256 (fb_base j) 256.
Proof.
  intros i j Hi Hj Hne. unfold disjoint, fb_base.
  rewrite !Z.shiftl_mul_pow2 by lia. change (2 ^ 8) with 256. lia.
Qed.

(** Command lists end where the FIS areas begin, and the FIS areas end
    where the command tables begin. *)
Lemma clb_fb_ctba_apart : forall i j s,
  0 <= i < 32 -> 0 <= j < 32 -> 0 <= s < 32 ->
  disjoint (clb_base i) 1024 (fb_base j) 256 /\
  disjoint (clb_base i) 1024 (ctba_base s) 256 /\
  disjoint (fb_base j) 256 (ctba_base s) 256.
Proof.
  intros i j s Hi Hj Hs. unfold disjoint, clb_base, fb_base, ctba_base.
  rewrite !Z.shiftl_mul_pow2 by lia.
  change (2 ^ 10) with 1024. change (2 ^ 8) with 256. change (2 ^ 13) with 8192.
  unfold AHCI_BASE. lia.
Qed.

Lemma rebase_headers_trace : forall L R n cmd_header i (m : machine R),
  0 <= i -> i + Z.of_nat n <= 255 ->
  exists m',
    rebase_headers L R n cmd_header i m = Ret tt m' /\
    dev m' = dev m /\
    trace m' = trace m ++ flat_map (header_events L cmd_header) (zrange i n).
Proof.
  intros L R. induction n as [|n IH]; intros cmd_header i m Hi Hn.
  - exists m. cbn. now rewrite app_nil_r.
  - cbn [rebase_headers zrange flat_map].
    unfold bind, write16, write32, memset. cbn [ram dev trace].
    rewrite u8_small by lia.
    match goal with
    | |- context [rebase_headers L R n cmd_header (i + 1) ?m1] =>
        destruct (IH cmd_header (i + 1) m1) as [m' [Hr [Hd Ht]]]; [lia|lia|]
    end.
    exists m'. split; [exact Hr|]. split; [exact Hd|].
    rewrite Ht. cbn [trace]. unfold header_events.
    rewrite <- !app_assoc. reflexivity.
Qed.

(** ** port_rebase in general *)

Lemma fill_spec : forall n mem a c x,
  fill mem a c n x =
  if (a <=? x) && (x <? a + Z.of_nat n) then u8 c else mem x.
Proof.
  induction n as [|n IH]; intros mem a c x.
  - cbn [fill].
    destruct (Z.leb_spec a x); destruct (Z.ltb_spec x (a + Z.of_nat 0));
      simpl; try reflexivity; lia.
  - cbn [fill]. rewrite IH. unfold st8.
    destruct (Z.leb_spec (a + 1) x);
      destruct (Z.ltb_spec x (a + 1 + Z.of_nat n));
      destruct (Z.leb_spec a x);
      destruct (Z.ltb_spec x (a + Z.of_nat (S n)));
      destruct (Z.eqb_spec x a); simpl; try reflexivity; lia.
Qed.

Lemma u8_u8 : forall v, u8 (u8 v) = u8 v.
Proof. intro v. unfold u8. now rewrite Z.mod_mod by lia. Qed.

Lemma ld8_fill : forall n mem a c x,
  ld8 (fill mem a c n) x =
  if (a <=? x) && (x <? a + Z.of_nat n) then u8 c else ld8 mem x.
Proof.
  intros. unfold ld8. rewrite fill_spec.
  destruct ((a <=? x) && (x <? a + Z.of_nat n)); [apply u8_u8|reflexivity].
Qed.

Lemma ld8_st8 : forall mem a v x,
  ld8 (st8 mem a v) x = if x =? a then u8 v else ld8 mem x.
Proof.
  intros. unfold ld8, st8. destruct (x =? a); [apply u8_u8|reflexivity].
Qed.

Lemma ld8_st32_other : forall mem a v x, x < a \/ a + 4 <= x ->
  ld8 (st32 mem a v) x = ld8 mem x.
Proof.
  intros mem a v x Hx. unfold st32. rewrite !ld8_st8.
  destruct (Z.eqb_spec x (a + 3)); [lia|].
  destruct (Z.eqb_spec x (a + 2)); [lia|].
  destruct (Z.eqb_spec x (a + 1)); [lia|].
  destruct (Z.eqb_spec x a); [lia|]. reflexivity.
Qed.

(** What [port->clb] holds once [rebase_port] has assigned and cleared the
    two base registers: the first [memset] has wiped it, and the stores to
    [fb] and [fbu] and the second [memset] put nothing but zeros there. *)
Lemma clb_reads_zero : forall mem p oc ou ofb ofu v w,
  ofb + 4 <= oc \/ oc + 4 <= ofb ->
  ofu + 4 <= oc \/ oc + 4 <= ofu ->
  ld32 (fill (st32 (st32 (fill (st32 (st32 mem (p + oc) v) (p + ou) 0)
                               (p + oc) 0 1024)
                         (p + ofb) w) (p + ofu) 0)
             (p + ofb) 0 256) (p + oc) = 0.
Proof.
  intros mem p oc ou ofb ofu v w Hfb Hfu.
  assert (B : forall x, p + oc <= x < p + oc + 4 ->
    ld8 (fill (st32 (st32 (fill (st32 (st32 mem (p + oc) v) (p + ou) 0)
                               (p + oc) 0 1024)
                         (p + ofb) w) (p + ofu) 0)
             (p + ofb) 0 256) x = 0).
  { intros x Hx. rewrite ld8_fill.
    destruct ((p + ofb <=? x) && (x <? p + ofb + Z.of_nat 256)); [reflexivity|].
    rewrite !ld8_st32_other by lia. rewrite ld8_fill.
    destruct (Z.leb_spec (p + oc) x);
      destruct (Z.ltb_spec x (p + oc + Z.of_nat 1024)); simpl;
      try reflexivity; lia. }
  unfold ld32. rewrite !B by lia. reflexivity.
Qed.

(** The course of [rebase_port] for any adapter, port and register
    model, on every layout whose [fb] and [fbu] fields do not overlap
    [clb]: if the engine does not stop, nothing else happens; if it stops,
    the events of [layout_events] follow, with the command list taken to
    be at address 0, and then the engine is restarted. *)
Lemma rebase_port_run : forall L R fuel hba i (m : machine R),
  0 <= i < 256 ->
  off_fb L + 4 <= off_clb L \/ off_clb L + 4 <= off_fb L ->
  off_fbu L + 4 <= off_clb L \/ off_clb L + 4 <= off_fbu L ->
  match stop_cmd L R fuel (port_addr L hba i) m with
  | Hang m1 => rebase_port L R fuel hba i m = Hang m1
  | Ret _ m1 =>
      exists m2,
        rebase_port L R fuel hba i m =
          start_cmd L R fuel (port_addr L hba i) m2 /\
        dev m2 = dev m1 /\
        trace m2 = trace m1 ++ layout_events L hba i
  end.
Proof.
  intros L R fuel hba i m Hi Hfb Hfu.
  assert (E : rebase_port L R fuel hba i m =
    match stop_cmd L R fuel (port_addr L hba i) m with
    | Hang m1 => Hang m1
    | Ret _ m1 =>
        bind (write32 R (port_addr L hba i + off_clb L) (clb_base i)) (fun _ =>
        bind (write32 R (port_addr L hba i + off_clbu L) 0) (fun _ =>
        bind (memset R (port_addr L hba i + off_clb L) 0 1024) (fun _ =>
        bind (write32 R (port_addr L hba i + off_fb L) (fb_base i)) (fun _ =>
        bind (write32 R (port_addr L hba i + off_fbu L) 0) (fun _ =>
        bind (memset R (port_addr L hba i + off_fb L) 0 256) (fun _ =>
        bind (read32 R (port_addr L hba i + off_clb L)) (fun cmd_header =>
        bind (rebase_headers L R 32 cmd_header 0) (fun _ =>
        start_cmd L R fuel (port_addr L hba i))))))))) m1
    end) by reflexivity.
  rewrite E. clear E.
  destruct (stop_cmd L R fuel (port_addr L hba i) m) as [[] m1|m1];
    [|reflexivity].
  unfold bind, write32, memset, read32. cbn [ram dev trace emit].
  rewrite clb_reads_zero by assumption.
  match goal with
  | |- context [rebase_headers L R 32 0 0 ?m'] =>
      destruct (rebase_headers_trace L R 32 0 0 m') as [m2 [Hr [Hd Ht]]];
        [lia|simpl; lia|]
  end.
  exists m2. rewrite Hr. split; [reflexivity|]. split; [exact Hd|].
  rewrite Ht. unfold emit. cbn [trace]. unfold layout_events. cbv zeta.
  change (u32 0) with 0. rewrite <- !app_assoc. reflexivity.
Qed.

(** ** port_rebase on definite inputs *)

(** C1. Ports 0 and 1 implemented.  [port_rebase] returns, and the two
    stores it makes to the command-table base of header slot 0, one while
    it handles port 0 and one while it handles port 1, carry the same
    address 0x40A000: the command table computed for slot 0 of port 1 is
    the 256-byte range computed for slot 0 of port 0. *)
Theorem port_rebase_command_tables_collide :
  let r := port_rebase ahci_layout ram_model 1 hba0 two_ports in
  returned r = true /\
  writes_to (0 + 0 * sizeof_cmd_header ahci_layout + off_ctba ahci_layout)
            (trace (final r)) = [ctba_base 0; ctba_base 0] /\
  ctba_base 0 = 0x40A000 /\
  ~ disjoint (ctba_base 0) 256 (ctba_base 0) 256.
Proof.
  cbv zeta. split; [vm_compute; reflexivity|].
  split; [vm_compute; reflexivity|].
  split; [reflexivity|].
  unfold disjoint. change (ctba_base 0) with 0x40A000. lia.
Qed.

(** C2. Port 0 implemented, the first byte of its command list region
    (at the scratch base) holding 0xAA.  [port_rebase] returns; the byte
    still reads 0xAA, the length field of the first command header of that
    command list reads 0, and the value 8 has been stored at address 2. *)
Theorem port_rebase_misses_scratch_memory :
  let r := port_rebase ahci_layout ram_model 1 hba0 one_port in
  returned r = true /\
  ld8 (ram (final r)) (clb_base 0) = 0xAA /\
  ld16 (ram (final r)) (clb_base 0 + off_prdtl ahci_layout) = 0 /\
  ld16 (ram (final r)) (0 + off_prdtl ahci_layout) = 8.
Proof.
  cbv zeta. repeat split; vm_compute; reflexivity.
Qed.

(** C3. Port 0 implemented.  [port_rebase] returns, and the command-list
    and FIS base registers of port 0 both read 0, not the scratch base
    0x400000 and the scratch base plus 32 KiB. *)
Theorem port_rebase_zeroes_base_registers :
  let r := port_rebase ahci_layout ram_model 1 hba0 one_port in
  returned r = true /\
  ld32 (ram (final r)) (port0 0 + off_clb ahci_layout) = 0 /\
  ld32 (ram (final r)) (port0 0 + off_fb ahci_layout) = 0 /\
  clb_base 0 = 0x400000 /\ fb_base 0 = 0x408000.
Proof.
  cbv zeta. repeat split; vm_compute; reflexivity.
Qed.

(** C10. Port 0 implemented, port 1 not, the signature register of port 1
    holding 0x101.  [port_rebase] returns, that register reads 0
    afterwards, and both [memset] calls made for port 0 cover it. *)
Theorem port_rebase_clobbers_next_port :
  let r := port_rebase ahci_layout ram_model 1 hba0 one_port in
  returned r = true /\
  Z.testbit (ld32 (ram one_port) (hba0 + off_pi ahci_layout)) 1 = false /\
  ld32 (ram one_port) (port0 1 + off_sig ahci_layout) = SATA_SIG_ATA /\
  ld32 (ram (final r)) (port0 1 + off_sig ahci_layout) = 0 /\
  memsets_over (port0 1 + off_sig ahci_layout) (trace (final r)) =
    [EvMemset (port0 0 + off_clb ahci_layout) 0 1024;
     EvMemset (port0 0 + off_fb ahci_layout) 0 256].
Proof.
  cbv zeta. repeat split; vm_compute; reflexivity.
Qed.

(** ** Instances of the theorems with premises *)

Lemma stop_cmd_returns_idle_witness :
  settles countdown_model 1 (port0 0 + off_cmd ahci_layout)
    (final (stop_cmd_clear ahci_layout countdown_model (port0 0) spinning)) /\
  (1 < 5)%nat /\
  stays_clear countdown_model (port0 0 + off_cmd ahci_layout)
    (final (stop_cmd_clear ahci_layout countdown_model (port0 0) spinning)) /\
  (exists m',
     stop_cmd ahci_layout countdown_model 5 (port0 0) spinning = Ret tt m') /\
  (forall budget m',
     stop_cmd ahci_layout countdown_model budget (port0 0) spinning = Ret tt m' ->
     exit_polls countdown_model (port0 0 + off_cmd ahci_layout) m') /\
  (forall budget m',
     stop_cmd ahci_layout countdown_model budget (port0 0) spinning = Ret tt m' ->
     returned_idle countdown_model (port0 0 + off_cmd ahci_layout) m').
Proof.
  assert (H : settles countdown_model 1 (port0 0 + off_cmd ahci_layout)
                (final (stop_cmd_clear ahci_layout countdown_model
                          (port0 0) spinning))).
  { exact (countdown_settles (port0 0 + off_cmd ahci_layout)
             (final (stop_cmd_clear ahci_layout countdown_model
                       (port0 0) spinning))). }
  assert (F : (1 < 5)%nat) by lia.
  assert (K : stays_clear countdown_model (port0 0 + off_cmd ahci_layout)
                (final (stop_cmd_clear ahci_layout countdown_model
                          (port0 0) spinning))).
  { apply countdown_stays_clear. }
  destruct (stop_cmd_returns_idle ahci_layout countdown_model 1 5 (port0 0)
              spinning H F) as [T [E S]].
  split; [exact H|]. split; [exact F|]. split; [exact K|].
  split; [exact T|]. split; [exact E|]. exact (S K).
Defined.

Lemma probe_port_scenario_witness :
  ld32 (ram scenario) (hba0 + off_pi ahci_layout) = 5 /\
  det_field (ld32 (ram scenario)
               (port_addr ahci_layout hba0 0 + off_ssts ahci_layout)) = 3 /\
  ipm_field (ld32 (ram scenario)
               (port_addr ahci_layout hba0 0 + off_ssts ahci_layout)) = 1 /\
  ld32 (ram scenario)
       (port_addr ahci_layout hba0 0 + off_sig ahci_layout) = SATA_SIG_ATA /\
  det_field (ld32 (ram scenario)
               (port_addr ahci_layout hba0 2 + off_ssts ahci_layout)) = 3 /\
  ipm_field (ld32 (ram scenario)
               (port_addr ahci_layout hba0 2 + off_ssts ahci_layout)) = 1 /\
  ld32 (ram scenario)
       (port_addr ahci_layout hba0 2 + off_sig ahci_layout) = SATA_SIG_ATAPI /\
  exists m' evs,
    probe_port ahci_layout ram_model hba0 scenario = Ret tt m' /\
    trace m' = trace scenario ++ evs /\
    log_lines evs = [tagged "SATA drive found, port = 0";
                     tagged "SATAPI drive found, port = 2"].
Proof.
  repeat (split; [vm_compute; reflexivity|]).
  apply (probe_port_scenario ahci_layout ram_model hba0 scenario);
    vm_compute; reflexivity.
Defined.

(** * Further properties of the driver *)

(** ** Stores leave other bytes alone *)

Lemma st8_other : forall mem a v x, x <> a -> st8 mem a v x = mem x.
Proof. intros. unfold st8. destruct (Z.eqb_spec x a); [contradiction|reflexivity]. Qed.

Lemma st16_other : forall mem a v x, x < a \/ a + 2 <= x ->
  st16 mem a v x = mem x.
Proof. intros. unfold st16. rewrite !st8_other by lia. reflexivity. Qed.

Lemma st32_other : forall mem a v x, x < a \/ a + 4 <= x ->
  st32 mem a v x = mem x.
Proof. intros. unfold st32. rewrite !st8_other by lia. reflexivity. Qed.

Lemma fill_other : forall n mem a c x, x < a \/ a + Z.of_nat n <= x ->
  fill mem a c n x = mem x.
Proof.
  intros. rewrite fill_spec.
  destruct (Z.leb_spec a x); destruct (Z.ltb_spec x (a + Z.of_nat n));
    simpl; try reflexivity; lia.
Qed.

Lemma fill_zero : forall n mem a x, a <= x < a + Z.of_nat n ->
  fill mem a 0 n x = 0.
Proof.
  intros. rewrite fill_spec.
  destruct (Z.leb_spec a x); destruct (Z.ltb_spec x (a + Z.of_nat n));
    simpl; try reflexivity; lia.
Qed.

(** ** The command engine *)

Section Engine.

Variable L : layout.
Variable R : reg_model.

Lemma poll_step_ram : forall a (m : machine R), ram (poll_step R a m) = ram m.
Proof.
  intros a m. unfold poll_step, poll32.
  now destruct (rm_read R a (ld32 (ram m) a) (dev m)).
Qed.

Lemma u32_land : forall v c, u32 (Z.land (u32 v) c) = Z.land (u32 v) c.
Proof.
  intros v c. unfold u32. rewrite <- !Z.land_ones by lia.
  rewrite <- (Z.land_assoc (Z.land v (Z.ones 32)) c), (Z.land_comm c).
  rewrite Z.land_assoc, <- (Z.land_assoc v), Z.land_diag. reflexivity.
Qed.

Lemma u32_land_poll : forall a (m : machine R) c,
  u32 (Z.land (poll_value R a m) c) = Z.land (poll_value R a m) c.
Proof. intros. unfold poll_value. apply u32_land. Qed.

(** One round of the wait of [stop_cmd]. *)
Lemma stop_wait_step : forall fuel port (m : machine R),
  stop_wait L R (S fuel) port m =
  let a := port + off_cmd L in
  if Z.testbit (poll_value R a m) 14
  then stop_wait L R fuel port (poll_step R a m)
  else if Z.testbit (poll_value R a (poll_step R a m)) 15
       then stop_wait L R fuel port (poll_step R a (poll_step R a m))
       else Ret tt (poll_step R a (poll_step R a m)).
Proof.
  intros fuel port m. cbn [stop_wait]. unfold bind at 1.
  rewrite poll32_run, bit_test by lia. cbv zeta.
  destruct (Z.testbit (poll_value R (port + off_cmd L) m) 14); [reflexivity|].
  unfold bind. rewrite poll32_run, bit_test by lia.
  now destruct (Z.testbit _ 15).
Qed.

(** While it waits, [stop_cmd] only polls. *)
Lemma stop_wait_polls : forall fuel port (m : machine R),
  exists polls,
    trace (final (stop_wait L R fuel port m)) =
      trace m ++ map (EvRead (port + off_cmd L)) polls /\
    ram (final (stop_wait L R fuel port m)) = ram m.
Proof.
  induction fuel as [|fuel IH]; intros port m.
  - exists []. cbn. now rewrite app_nil_r.
  - rewrite stop_wait_step. cbv zeta.
    set (a := port + off_cmd L) in *.
    destruct (Z.testbit (poll_value R a m) 14).
    + destruct (IH port (poll_step R a m)) as [polls [Ht Hr]].
      exists (poll_value R a m :: polls). fold a in Ht, Hr.
      rewrite Ht, Hr, poll_step_trace, poll_step_ram, <- app_assoc.
      split; reflexivity.
    + destruct (Z.testbit (poll_value R a (poll_step R a m)) 15).
      * destruct (IH port (poll_step R a (poll_step R a m)))
          as [polls [Ht Hr]].
        exists (poll_value R a m :: poll_value R a (poll_step R a m) :: polls).
        fold a in Ht, Hr.
        rewrite Ht, Hr, !poll_step_trace, !poll_step_ram, <- !app_assoc.
        split; reflexivity.
      * exists [poll_value R a m; poll_value R a (poll_step R a m)].
        cbn [final]. rewrite !poll_step_trace, !poll_step_ram, <- !app_assoc.
        split; reflexivity.
Qed.

(** The two stores of [stop_cmd]. *)
Lemma stop_cmd_clear_run : forall port (m : machine R),
  exists x y m1,
    stop_cmd_clear L R port m = Ret tt m1 /\
    trace m1 =
      trace m
      ++ [EvRead  (port + off_cmd L) x;
          EvWrite (port + off_cmd L) (Z.land x (Z.lnot 1));
          EvRead  (port + off_cmd L) y;
          EvWrite (port + off_cmd L) (Z.land y (Z.lnot (Z.shiftl 1 4)))] /\
    ram m1 =
      st32 (st32 (ram m) (port + off_cmd L) (Z.land x (Z.lnot 1)))
           (port + off_cmd L) (Z.land y (Z.lnot (Z.shiftl 1 4))).
Proof.
  intros port m. unfold stop_cmd_clear.
  set (a := port + off_cmd L).
  unfold bind, write32. rewrite poll32_run.
  match goal with
  | |- context [poll32 R a ?m3] => rewrite (poll32_run R a m3)
  end.
  eexists (poll_value R a m), _, _. split; [reflexivity|].
  cbn [trace ram].
  rewrite !u32_land_poll, poll_step_trace, poll_step_ram. cbn [trace ram].
  rewrite poll_step_trace, poll_step_ram, <- !app_assoc.
  split; reflexivity.
Qed.

(** X2. Whether or not it returns, [stop_cmd] makes exactly two stores,
    both before it starts to wait: the value just read with bit 0 (start)
    cleared, then the value read next with bit 4 (FIS-receive-enable)
    cleared, every other bit written back as read.  While it waits it only
    polls, and memory differs from before by these two stores only. *)
Theorem stop_cmd_stores_then_polls : forall fuel port (m : machine R),
  exists x y polls,
    trace (final (stop_cmd L R fuel port m)) =
      trace m
      ++ [EvRead  (port + off_cmd L) x;
          EvWrite (port + off_cmd L) (Z.land x (Z.lnot 1));
          EvRead  (port + off_cmd L) y;
          EvWrite (port + off_cmd L) (Z.land y (Z.lnot (Z.shiftl 1 4)))]
      ++ map (EvRead (port + off_cmd L)) polls /\
    ram (final (stop_cmd L R fuel port m)) =
      st32 (st32 (ram m) (port + off_cmd L) (Z.land x (Z.lnot 1)))
           (port + off_cmd L) (Z.land y (Z.lnot (Z.shiftl 1 4))).
Proof.
  intros fuel port m.
  destruct (stop_cmd_clear_run port m) as [x [y [m1 [H1 [Ht Hr]]]]].
  destruct (stop_wait_polls fuel port m1) as [polls [Pt Pr]].
  exists x, y, polls. unfold stop_cmd, bind. rewrite H1.
  rewrite Pt, Pr, Ht, Hr, <- app_assoc. split; reflexivity.
Qed.

(** *** An engine that does not stop *)

Lemma nth_poll_shift : forall (P : Z -> Prop) a (m : machine R),
  (forall n, P (nth_poll R n a m)) ->
  forall n, P (nth_poll R n a (poll_step R a m)).
Proof. intros P a m H n. exact (H (S n)). Qed.

Lemma stop_wait_spins : forall fuel port (m : machine R),
  (forall n, Z.testbit (nth_poll R n (port + off_cmd L) m) 15 = true) \/
  (forall n, Z.testbit (nth_poll R n (port + off_cmd L) m) 14 = true) ->
  returned (stop_wait L R fuel port m) = false.
Proof.
  induction fuel as [|fuel IH]; intros port m H; [reflexivity|].
  rewrite stop_wait_step. cbv zeta. set (a := port + off_cmd L) in *.
  assert (H1 : (forall n, Z.testbit (nth_poll R n a (poll_step R a m)) 15 = true) \/
               (forall n, Z.testbit (nth_poll R n a (poll_step R a m)) 14 = true)).
  { destruct H as [H|H]; [left|right]; intro n; exact (H (S n)). }
  destruct (Z.testbit (poll_value R a m) 14) eqn:E14.
  - now apply IH.
  - destruct (Z.testbit (poll_value R a (poll_step R a m)) 15) eqn:E15.
    + apply IH. destruct H1 as [H1|H1]; [left|right]; intro n; exact (H1 (S n)).
    + exfalso. destruct H as [H|H].
      * specialize (H 1%nat). cbn [nth_poll] in H. congruence.
      * specialize (H 0%nat). cbn [nth_poll] in H. congruence.
Qed.

(** X3. [stop_cmd] has no timeout: when every poll of its wait reads the
    command-list-running bit (15) set, or every poll reads the
    FIS-receive-running bit (14) set, it does not return, whatever the
    poll budget. *)
Theorem stop_cmd_has_no_timeout : forall port (m : machine R),
  (forall n, Z.testbit (nth_poll R n (port + off_cmd L)
                          (final (stop_cmd_clear L R port m))) 15 = true) \/
  (forall n, Z.testbit (nth_poll R n (port + off_cmd L)
                          (final (stop_cmd_clear L R port m))) 14 = true) ->
  forall fuel, returned (stop_cmd L R fuel port m) = false.
Proof.
  intros port m H fuel.
  destruct (stop_cmd_clear_returns L R port m) as [m1 H1].
  rewrite H1 in H. cbn [final] in H.
  unfold stop_cmd, bind. rewrite H1. now apply stop_wait_spins.
Qed.

(** X4. [start_cmd] has no timeout: when every poll reads the
    command-list-running bit (15) set it does not return, whatever the poll
    budget; it spends the whole budget on polls and leaves memory as it
    was. *)
Theorem start_cmd_has_no_timeout : forall port (m : machine R),
  (forall n, Z.testbit (nth_poll R n (port + off_cmd L) m) 15 = true) ->
  forall fuel,
    exists m' polls,
      start_cmd L R fuel port m = Hang m' /\
      ram m' = ram m /\
      trace m' = trace m ++ map (EvRead (port + off_cmd L)) polls /\
      List.length polls = fuel.
Proof.
  intros port m H fuel. revert m H.
  assert (W : forall m : machine R,
    (forall n, Z.testbit (nth_poll R n (port + off_cmd L) m) 15 = true) ->
    exists m' polls,
      start_wait L R fuel port m = Hang m' /\
      ram m' = ram m /\
      trace m' = trace m ++ map (EvRead (port + off_cmd L)) polls /\
      List.length polls = fuel).
  { induction fuel as [|fuel IH]; intros m H.
    - exists m, []. cbn. now rewrite app_nil_r.
    - cbn [start_wait]. unfold bind. rewrite poll32_run.
      set (a := port + off_cmd L) in *.
      rewrite land_bit_testbit by lia.
      pose proof (H 0%nat) as H0. cbn [nth_poll] in H0. rewrite H0. cbn [negb].
      destruct (IH (poll_step R a m)) as [m' [polls [Hs [Hr [Ht Hl]]]]].
      { intro n. exact (H (S n)). }
      exists m', (poll_value R a m :: polls). rewrite Hs, Hr, Ht.
      rewrite poll_step_ram, poll_step_trace, <- app_assoc. cbn [List.length].
      now rewrite Hl. }
  intros m H. destruct (W m H) as [m' [polls [Hs Hrest]]].
  exists m', polls. unfold start_cmd. unfold bind at 1. rewrite Hs.
  split; [reflexivity|exact Hrest].
Qed.

End Engine.

(** The jammed adapter reads command-list-running set at every poll. *)
Lemma stuck_bit : forall n a (m : machine stuck_model),
  Z.testbit (nth_poll stuck_model n a m) 15 = true.
Proof.
  induction n as [|n IH]; intros a m.
  - cbn [nth_poll]. unfold poll_value. cbn [rm_read stuck_model fst].
    rewrite u32_testbit, Z.lor_spec by lia. apply orb_true_r.
  - cbn [nth_poll]. apply IH.
Qed.

(** *** The engine on plain memory *)

Lemma bytes_recombine : forall v,
  u8 v + 2 ^ 8 * u8 (Z.shiftr v 8) + 2 ^ 16 * u8 (Z.shiftr v 16)
  + 2 ^ 24 * u8 (Z.shiftr v 24) = u32 v.
Proof.
  intro v. unfold u8, u32. rewrite !Z.shiftr_div_pow2 by lia.
  change (2 ^ 32) with (2 ^ 8 * (2 ^ 8 * (2 ^ 8 * 2 ^ 8))).
  rewrite !Z.rem_mul_r by lia.
  rewrite !Z.div_div by lia.
  change (2 ^ 8 * 2 ^ 8) with (2 ^ 16).
  change (2 ^ 16 * 2 ^ 8) with (2 ^ 24).
  change (2 ^ 24) with 16777216. change (2 ^ 16) with 65536.
  change (2 ^ 8) with 256. lia.
Qed.

Lemma ld32_st32 : forall mem a v, ld32 (st32 mem a v) a = u32 v.
Proof.
  intros mem a v. rewrite <- bytes_recombine. unfold ld32, st32.
  rewrite !ld8_st8.
  repeat match goal with
  | |- context [?x =? ?y] =>
      destruct (Z.eqb_spec x y); try lia
  end.
Qed.

Lemma in32_ld32 : forall mem a, in32 (ld32 mem a).
Proof.
  intros mem a. unfold in32, u32. apply Z.mod_small. apply ld32_range.
Qed.

Lemma in32_land : forall v k, in32 v -> in32 (Z.land v k).
Proof. intros v k H. unfold in32. rewrite <- H. apply u32_land. Qed.

Lemma in32_lor : forall v k, in32 v -> 0 <= k < 2 ^ 32 -> in32 (Z.lor v k).
Proof. intros v k H Hk. unfold in32. rewrite <- H. now apply u32_lor. Qed.

Lemma lor_land_lnot : forall c k, Z.lor (Z.land c (Z.lnot k)) k = Z.lor c k.
Proof.
  intros c k. apply Z.bits_inj'. intros n Hn.
  rewrite !Z.lor_spec, Z.land_spec, Z.lnot_spec by lia.
  destruct (Z.testbit c n); destruct (Z.testbit k n); reflexivity.
Qed.

Lemma poll32_plain : forall a (m : machine ram_model),
  poll32 ram_model a m =
  Ret (ld32 (ram m) a) (extend m [EvRead a (ld32 (ram m) a)]).
Proof.
  intros a m. unfold poll32. cbn [rm_read ram_model].
  now rewrite (in32_ld32 (ram m) a).
Qed.

Lemma stop_cmd_plain : forall L fuel port (m : machine ram_model),
  Z.testbit (ld32 (ram m) (port + off_cmd L)) 14 = false ->
  Z.testbit (ld32 (ram m) (port + off_cmd L)) 15 = false ->
  (0 < fuel)%nat ->
  exists m1,
    stop_cmd L ram_model fuel port m = Ret tt m1 /\
    ram m1 =
      st32 (st32 (ram m) (port + off_cmd L)
                 (Z.land (ld32 (ram m) (port + off_cmd L)) (Z.lnot 1)))
           (port + off_cmd L)
           (Z.land (ld32 (ram m) (port + off_cmd L)) (Z.lnot 0x11)).
Proof.
  intros L fuel port m H14 H15 Hf.
  destruct fuel as [|fuel]; [lia|].
  set (a := port + off_cmd L) in *. set (c := ld32 (ram m) a) in *.
  assert (Hc : in32 c) by apply in32_ld32.
  assert (H1 : in32 (Z.land c (Z.lnot 1))) by now apply in32_land.
  assert (E : Z.land (Z.land c (Z.lnot 1)) (Z.lnot (Z.shiftl 1 4)) =
              Z.land c (Z.lnot 0x11)).
  { now rewrite <- Z.land_assoc. }
  assert (H2 : in32 (Z.land c (Z.lnot 0x11))) by now apply in32_land.
  assert (B14 : Z.testbit (Z.land c (Z.lnot 0x11)) 14 = false).
  { rewrite Z.land_spec, H14. reflexivity. }
  assert (B15 : Z.testbit (Z.land c (Z.lnot 0x11)) 15 = false).
  { rewrite Z.land_spec, H15. reflexivity. }
  unfold stop_cmd, stop_cmd_clear. fold a.
  unfold bind at 1. unfold bind at 1. rewrite poll32_plain. fold c.
  unfold bind at 1, write32 at 1. cbn [ram dev trace extend].
  unfold bind at 1. rewrite poll32_plain. cbn [ram dev trace extend].
  rewrite ld32_st32, H1, E. unfold write32. cbn [ram dev trace].
  rewrite stop_wait_step. cbv zeta. fold a.
  unfold poll_value, poll_step. rewrite !poll32_plain.
  cbn [rm_read ram_model fst final ram dev trace extend].
  rewrite !ld32_st32, !H2, B14, B15.
  eexists. split; reflexivity.
Qed.

Lemma start_cmd_plain : forall L fuel port (m : machine ram_model),
  Z.testbit (ld32 (ram m) (port + off_cmd L)) 15 = false ->
  (0 < fuel)%nat ->
  exists m2,
    start_cmd L ram_model fuel port m = Ret tt m2 /\
    ram m2 =
      st32 (st32 (ram m) (port + off_cmd L)
                 (Z.lor (ld32 (ram m) (port + off_cmd L)) (Z.shiftl 1 4)))
           (port + off_cmd L)
           (Z.lor (ld32 (ram m) (port + off_cmd L)) 0x11).
Proof.
  intros L fuel port m H15 Hf.
  destruct fuel as [|fuel]; [lia|].
  set (a := port + off_cmd L) in *. set (c := ld32 (ram m) a) in *.
  assert (Hc : in32 c) by apply in32_ld32.
  assert (H1 : in32 (Z.lor c (Z.shiftl 1 4))).
  { apply in32_lor; [assumption|cbn; lia]. }
  assert (E : Z.lor (Z.lor c (Z.shiftl 1 4)) 1 = Z.lor c 0x11).
  { now rewrite <- Z.lor_assoc. }
  unfold start_cmd. cbn [start_wait]. fold a.
  unfold bind at 1. unfold bind at 1. rewrite poll32_plain. fold c.
  rewrite land_bit_testbit, H15 by lia. cbn [negb ret].
  unfold bind at 1. rewrite poll32_plain. cbn [ram dev trace extend]. fold c.
  unfold bind at 1, write32 at 1. cbn [ram dev trace].
  unfold bind. rewrite poll32_plain. cbn [ram dev trace extend].
  rewrite ld32_st32, H1, E. unfold write32. cbn [ram dev trace].
  eexists. split; reflexivity.
Qed.

(** X5. On plain memory, with both running bits of a port's command
    register clear: [stop_cmd] returns and leaves the register with bits 0
    and 4 cleared and every other bit as it was; [start_cmd] run after it
    returns and leaves the register with bits 0 and 4 set and every other
    bit as it was at the start; no byte outside the register changes. *)
Theorem engine_restart_on_plain_memory :
  forall L fuel port (m : machine ram_model),
  Z.testbit (ld32 (ram m) (port + off_cmd L)) 14 = false ->
  Z.testbit (ld32 (ram m) (port + off_cmd L)) 15 = false ->
  (0 < fuel)%nat ->
  exists m1 m2,
    stop_cmd L ram_model fuel port m = Ret tt m1 /\
    ld32 (ram m1) (port + off_cmd L) =
      Z.land (ld32 (ram m) (port + off_cmd L)) (Z.lnot 0x11) /\
    start_cmd L ram_model fuel port m1 = Ret tt m2 /\
    ld32 (ram m2) (port + off_cmd L) =
      Z.lor (ld32 (ram m) (port + off_cmd L)) 0x11 /\
    (forall x, x < port + off_cmd L \/ port + off_cmd L + 4 <= x ->
               ram m1 x = ram m x /\ ram m2 x = ram m x).
Proof.
  intros L fuel port m H14 H15 Hf.
  set (a := port + off_cmd L) in *. set (c := ld32 (ram m) a) in *.
  destruct (stop_cmd_plain L fuel port m H14 H15 Hf) as [m1 [S1 R1]].
  fold a in R1. fold c in R1.
  assert (V1 : ld32 (ram m1) a = Z.land c (Z.lnot 0x11)).
  { rewrite R1, ld32_st32. apply in32_land, in32_ld32. }
  assert (B15 : Z.testbit (ld32 (ram m1) a) 15 = false).
  { rewrite V1, Z.land_spec, H15. reflexivity. }
  destruct (start_cmd_plain L fuel port m1 B15 Hf) as [m2 [S2 R2]].
  fold a in R2. rewrite V1 in R2.
  exists m1, m2. split; [exact S1|]. split; [exact V1|]. split; [exact S2|].
  split.
  - rewrite R2, ld32_st32, lor_land_lnot.
    apply in32_lor; [apply in32_ld32|cbn; lia].
  - intros x Hx. split.
    + rewrite R1, !st32_other by assumption. reflexivity.
    + rewrite R2, !st32_other by assumption. rewrite R1, !st32_other by assumption.
      reflexivity.
Qed.

(** ** Memory after the header loop *)

Section Headers.

Variable L : layout.
Variable R : reg_model.
Hypothesis HL : header_ok L.

Lemma rebase_headers_memory : forall n c i (m : machine R),
  0 <= i -> i + Z.of_nat n <= 255 ->
  exists m',
    rebase_headers L R n c i m = Ret tt m' /\
    (forall x, (forall s, i <= s < i + Z.of_nat n -> ~ in_header L c s x) ->
               ram m' x = ram m x) /\
    (forall s, i <= s < i + Z.of_nat n ->
       ld16 (ram m') (c + s * sizeof_cmd_header L + off_prdtl L) = 8 /\
       ld32 (ram m') (c + s * sizeof_cmd_header L + off_ctba L) = 0 /\
       ld32 (ram m') (c + s * sizeof_cmd_header L + off_ctbau L) = 0).
Proof.
  destruct HL as [K0 [K1 [K2 [K3 K4]]]].
  induction n as [|n IH]; intros c i m Hi Hn.
  - exists m. split; [reflexivity|]. split; [reflexivity|]. intros s Hs. lia.
  - cbn [rebase_headers]. unfold bind, write16, write32, memset.
    cbn [ram dev trace]. rewrite u8_small by lia.
    set (h := c + i * sizeof_cmd_header L).
    match goal with
    | |- context [rebase_headers L R n c (i + 1) ?m1] =>
        destruct (IH c (i + 1) m1) as [m' [Hr [Hf Hv]]]; [lia|lia|];
        set (m1' := m1) in *
    end.
    assert (Hlow : forall x, x < h + sizeof_cmd_header L + off_prdtl L ->
                             ram m' x = ram m1' x).
    { intros x Hx. apply Hf. intros s Hs. unfold in_header. subst h. nia. }
    assert (Hbyte : forall x, ld8 (ram m') x = u8 (ram m' x)) by reflexivity.
    exists m'. split; [exact Hr|]. split.
    + intros x Hx. rewrite Hf.
      * assert (Hi' : ~ in_header L c i x) by (apply Hx; lia).
        unfold in_header in Hi'. fold h in Hi'. subst m1'. cbn [ram].
        rewrite fill_other, !st32_other, st16_other by (cbn; lia). reflexivity.
      * intros s Hs. apply Hx. lia.
    + intros s Hs. destruct (Z.eq_dec s i) as [->|Hne].
      * fold h. unfold ld16, ld32, ld8.
        rewrite !Hlow by lia. subst m1'. cbn [ram].
        rewrite !(fill_other 256 _ (h + off_ctba L) 0 (h + off_prdtl L)) by lia.
        rewrite !(fill_other 256 _ (h + off_ctba L) 0 (h + off_prdtl L + 1)) by lia.
        rewrite !fill_zero by (cbn; lia).
        rewrite !st32_other by lia. unfold st16, st8.
        repeat match goal with
        | |- context [?x =? ?y] => destruct (Z.eqb_spec x y); try lia
        end.
        repeat split; reflexivity.
      * apply Hv. lia.
Qed.

End Headers.

(** ** Memory after port_rebase *)

Ltac layout_norm :=
  cbn [ahci_layout off_pi off_ports sizeof_port off_clb off_clbu off_fb
       off_fbu off_cmd off_sig off_ssts sizeof_cmd_header off_prdtl
       off_ctba off_ctbau] in *.

Lemma header_ok_ahci : header_ok ahci_layout.
Proof. unfold header_ok. layout_norm. lia. Qed.

Section Frames.

Variable L : layout.
Variable R : reg_model.

Lemma stop_cmd_frame : forall fuel port (m : machine R) x,
  x < port + off_cmd L \/ port + off_cmd L + 4 <= x ->
  ram (final (stop_cmd L R fuel port m)) x = ram m x.
Proof.
  intros fuel port m x Hx.
  destruct (stop_cmd_clear_run L R port m) as [u [v [m1 [H1 [_ Hr]]]]].
  destruct (stop_wait_polls L R fuel port m1) as [polls [_ Pr]].
  unfold stop_cmd, bind. rewrite H1, Pr, Hr, !st32_other by assumption.
  reflexivity.
Qed.

Lemma start_cmd_frame : forall fuel port (m : machine R) x,
  x < port + off_cmd L \/ port + off_cmd L + 4 <= x ->
  ram (final (start_cmd L R fuel port m)) x = ram m x.
Proof.
  intros fuel port m x Hx.
  destruct (start_wait_shape L R fuel port m) as [busy [_ Hm]].
  unfold start_cmd. unfold bind at 1.
  destruct (start_wait L R fuel port m) as [[] m1|m1].
  - destruct Hm as [Hr _]. unfold bind, write32. rewrite poll32_run.
    match goal with
    | |- context [poll32 R ?a ?m3] => rewrite (poll32_run R a m3)
    end.
    cbn [final ram]. rewrite st32_other by assumption.
    rewrite poll_step_ram. cbn [ram]. rewrite st32_other by assumption.
    rewrite poll_step_ram. now rewrite Hr.
  - destruct Hm as [Hr _]. cbn [final]. now rewrite Hr.
Qed.

Lemma rebase_port_unfold : forall fuel hba i (m : machine R),
  rebase_port L R fuel hba i m =
  match stop_cmd L R fuel (port_addr L hba i) m with
  | Hang m1 => Hang m1
  | Ret _ m1 =>
      bind (write32 R (port_addr L hba i + off_clb L) (clb_base i)) (fun _ =>
      bind (write32 R (port_addr L hba i + off_clbu L) 0) (fun _ =>
      bind (memset R (port_addr L hba i + off_clb L) 0 1024) (fun _ =>
      bind (write32 R (port_addr L hba i + off_fb L) (fb_base i)) (fun _ =>
      bind (write32 R (port_addr L hba i + off_fbu L) 0) (fun _ =>
      bind (memset R (port_addr L hba i + off_fb L) 0 256) (fun _ =>
      bind (read32 R (port_addr L hba i + off_clb L)) (fun cmd_header =>
      bind (rebase_headers L R 32 cmd_header 0) (fun _ =>
      start_cmd L R fuel (port_addr L hba i))))))))) m1
  end.
Proof. reflexivity. Qed.

End Frames.

Section Rebase.

Variable R : reg_model.

(** [rebase_port] up to the restart of the engine: once the engine has
    stopped, the 1024 bytes from the port's register block on are zero and
    nothing else above the header loop's reach has changed. *)
Lemma rebase_port_middle : forall fuel hba i (m : machine R),
  0 <= i < 32 ->
  match stop_cmd ahci_layout R fuel (port_addr ahci_layout hba i) m with
  | Hang m1 => rebase_port ahci_layout R fuel hba i m = Hang m1
  | Ret _ m1 =>
      exists m2,
        rebase_port ahci_layout R fuel hba i m =
          start_cmd ahci_layout R fuel (port_addr ahci_layout hba i) m2 /\
        dev m2 = dev m1 /\
        (forall x, ~ low x ->
           x < port_addr ahci_layout hba i \/
             port_addr ahci_layout hba i + 1024 <= x ->
           ram m2 x = ram m1 x) /\
        (forall x, ~ low x ->
           port_addr ahci_layout hba i <= x
             < port_addr ahci_layout hba i + 1024 ->
           ram m2 x = 0)
  end.
Proof.
  intros fuel hba i m Hi. rewrite rebase_port_unfold.
  set (P := port_addr ahci_layout hba i).
  destruct (stop_cmd ahci_layout R fuel P m) as [[] m1|m1]; [|reflexivity].
  unfold bind, write32, memset, read32, emit. cbn [ram dev trace].
  rewrite clb_reads_zero by (layout_norm; lia).
  match goal with
  | |- context [rebase_headers ahci_layout R 32 0 0 ?mx] =>
      destruct (rebase_headers_memory ahci_layout R header_ok_ahci 32 0 0 mx)
        as [m2 [Hr [Hf _]]]; [lia|simpl; lia|]; rewrite Hr;
      destruct (rebase_headers_trace ahci_layout R 32 0 0 mx)
        as [m2' [Hr' [Hd _]]]; [lia|simpl; lia|]
  end.
  rewrite Hr in Hr'. injection Hr' as <-.
  cbn [ram dev] in Hf, Hd.
  assert (Hlow : forall x, ~ low x ->
            forall s, 0 <= s < 0 + Z.of_nat 32 -> ~ in_header ahci_layout 0 s x).
  { intros x Hx s Hs. unfold in_header, low in *. layout_norm. lia. }
  exists m2. split; [reflexivity|]. split; [exact Hd|]. split.
  - intros x Hl Hx. rewrite Hf by now apply Hlow. layout_norm.
    rewrite fill_other, !st32_other, fill_other, !st32_other by (cbn; lia).
    reflexivity.
  - intros x Hl Hx. rewrite Hf by now apply Hlow. layout_norm.
    destruct (Z_lt_le_dec x (P + 8)) as [Hlt|Hge].
    + rewrite fill_other, !st32_other by (cbn; lia).
      apply fill_zero. cbn. lia.
    + destruct (Z_lt_le_dec x (P + 8 + 256)) as [Hlt|Hge'].
      * apply fill_zero. cbn. lia.
      * rewrite fill_other, !st32_other by (cbn; lia).
        apply fill_zero. cbn. lia.
Qed.

Lemma rebase_port_memory : forall fuel hba i (m : machine R),
  0 <= i < 32 ->
  (forall x, ~ low x ->
     x < port_addr ahci_layout hba i \/
       port_addr ahci_layout hba i + 1024 <= x ->
     ram (final (rebase_port ahci_layout R fuel hba i m)) x = ram m x) /\
  (forall m', rebase_port ahci_layout R fuel hba i m = Ret tt m' ->
     forall x, ~ low x ->
       port_addr ahci_layout hba i <= x < port_addr ahci_layout hba i + 1024 ->
       x < port_addr ahci_layout hba i + 0x18 \/
         port_addr ahci_layout hba i + 0x1C <= x ->
       ram m' x = 0).
Proof.
  intros fuel hba i m Hi.
  pose proof (rebase_port_middle fuel hba i m Hi) as Hmid.
  set (P := port_addr ahci_layout hba i) in *.
  pose proof (stop_cmd_frame ahci_layout R fuel P m) as Fstop.
  destruct (stop_cmd ahci_layout R fuel P m) as [[] m1|m1].
  2:{ rewrite Hmid. split; [|discriminate]. intros x _ Hx. apply Fstop.
      layout_norm. lia. }
  cbn [final] in Fstop. destruct Hmid as [m2 [E [_ [F2 Z2]]]]. rewrite E.
  pose proof (start_cmd_frame ahci_layout R fuel P m2) as Fstart.
  split.
  - intros x Hl Hx. rewrite Fstart by (layout_norm; lia).
    rewrite F2 by assumption. apply Fstop. layout_norm. lia.
  - intros m' Hm' x Hl Hx Hc.
    specialize (Fstart x). rewrite Hm' in Fstart. cbn [final] in Fstart.
    rewrite Fstart by (layout_norm; lia). now apply Z2.
Qed.

End Rebase.

Section RebaseLoop.

Variable R : reg_model.

Lemma final_bind : forall (A B : Type) (p : M R A) (f : A -> M R B) m,
  final (bind p f m) =
  match p m with
  | Ret a m1 => final (f a m1)
  | Hang m1 => m1
  end.
Proof. intros. unfold bind. now destruct (p m). Qed.

Lemma rebase_loop_memory : forall n fuel hba i pi (m : machine R),
  0 <= i -> i + Z.of_nat n <= 32 ->
  (forall x, ~ low x ->
     x < port_addr ahci_layout hba i \/
       port_addr ahci_layout hba i + 128 * Z.of_nat n + 896 <= x ->
     ram (final (rebase_loop ahci_layout R n fuel hba i pi m)) x = ram m x) /\
  (forall m', rebase_loop ahci_layout R n fuel hba i pi m = Ret tt m' ->
     1256 <= hba + 256 ->
     forall k, i <= k < i + Z.of_nat n -> Z.testbit pi (k - i) = true ->
     forall x,
       port_addr ahci_layout hba k <= x < port_addr ahci_layout hba k + 128 ->
       x < port_addr ahci_layout hba k + 0x18 \/
         port_addr ahci_layout hba k + 0x1C <= x ->
       ram m' x = 0).
Proof.
  induction n as [|n IH]; intros fuel hba i pi m Hi Hn.
  - split; [reflexivity|]. intros m' _ _ k Hk. lia.
  - cbn [rebase_loop]. rewrite land_1_testbit.
    assert (Hu : u8 (i + 1) = i + 1) by (apply u8_small; lia).
    rewrite Hu.
    assert (HP : forall k, port_addr ahci_layout hba k = hba + 256 + k * 128).
    { intro k. unfold port_addr. layout_norm. reflexivity. }
    destruct (Z.testbit pi 0) eqn:E0; cbn [negb].
    + destruct (rebase_port_memory R fuel hba i m) as [Fp Zp]; [lia|].
      split.
      * intros x Hl Hx. rewrite final_bind.
        destruct (rebase_port ahci_layout R fuel hba i m) as [[] m1|m1] eqn:Ep.
        -- destruct (IH fuel hba (i + 1) (Z.shiftr pi 1) m1) as [Fl _]; [lia|lia|].
           rewrite Fl by (try assumption; rewrite HP in *; lia).
           cbn [final] in Fp. apply Fp; [assumption|]. rewrite HP in *. lia.
        -- cbn [final] in Fp. apply Fp; [assumption|]. rewrite HP in *. lia.
      * intros m' Hm' Hh k Hk Hb x Hx Hc. unfold bind in Hm'.
        destruct (rebase_port ahci_layout R fuel hba i m) as [[] m1|m1] eqn:Ep;
          [|discriminate].
        destruct (IH fuel hba (i + 1) (Z.shiftr pi 1) m1) as [Fl Zl]; [lia|lia|].
        destruct (Z.eq_dec k i) as [->|Hne].
        -- rewrite Hm' in Fl. cbn [final] in Fl.
           assert (Hnl : ~ low x) by (unfold low; rewrite HP in *; lia).
           rewrite Fl by (try assumption; rewrite !HP in *; lia).
           apply (Zp m1 eq_refl); try assumption. rewrite HP in *. lia.
        -- apply (Zl m' Hm' Hh k); try assumption; [lia|].
           rewrite Z.shiftr_spec by lia.
           now replace (k - (i + 1) + 1) with (k - i) by lia.
    + split.
      * intros x Hl Hx. rewrite final_bind. cbn [ret final].
        destruct (IH fuel hba (i + 1) (Z.shiftr pi 1) m) as [Fl _]; [lia|lia|].
        apply Fl; [assumption|]. rewrite HP in *. lia.
      * intros m' Hm' Hh k Hk Hb x Hx Hc. unfold bind, ret in Hm'.
        destruct (IH fuel hba (i + 1) (Z.shiftr pi 1) m) as [_ Zl]; [lia|lia|].
        destruct (Z.eq_dec k i) as [->|Hne].
        -- rewrite Z.sub_diag in Hb. congruence.
        -- apply (Zl m' Hm' Hh k); try assumption; [lia|].
           rewrite Z.shiftr_spec by lia.
           now replace (k - (i + 1) + 1) with (k - i) by lia.
Qed.

End RebaseLoop.

Lemma port_rebase_unfold : forall L R fuel hba (m : machine R),
  port_rebase L R fuel hba m =
  rebase_loop L R 32 fuel hba 0 (ld32 (ram m) (hba + off_pi L))
    (emit (EvRead (hba + off_pi L) (ld32 (ram m) (hba + off_pi L))) m).
Proof. reflexivity. Qed.

Lemma ld32_zero : forall mem a,
  (forall x, a <= x < a + 4 -> mem x = 0) -> ld32 mem a = 0.
Proof.
  intros mem a H. unfold ld32, ld8. rewrite !H by lia. reflexivity.
Qed.

Lemma ld32_same : forall mem mem' a,
  (forall x, a <= x < a + 4 -> mem' x = mem x) -> ld32 mem' a = ld32 mem a.
Proof.
  intros mem mem' a H. unfold ld32, ld8. rewrite !H by lia. reflexivity.
Qed.

Lemma port_rebase_frame : forall R fuel hba (m : machine R) x,
  ~ (2 <= x < 1256) ->
  x < hba + 0x100 \/ hba + 0x100 + 0x1380 <= x ->
  ram (final (port_rebase ahci_layout R fuel hba m)) x = ram m x.
Proof.
  intros R fuel hba m x Hl Hx. rewrite port_rebase_unfold.
  destruct (rebase_loop_memory R 32 fuel hba 0
              (ld32 (ram m) (hba + off_pi ahci_layout))
              (emit (EvRead (hba + off_pi ahci_layout)
                       (ld32 (ram m) (hba + off_pi ahci_layout))) m))
    as [F _]; [lia|simpl; lia|].
  rewrite F; [reflexivity|exact Hl|].
  unfold port_addr. layout_norm. simpl Z.of_nat. lia.
Qed.

Lemma port_rebase_zero : forall R fuel hba (m : machine R),
  let r := port_rebase ahci_layout R fuel hba m in
  1256 <= hba + 0x100 ->
  returned r = true ->
  forall i, 0 <= i < 32 ->
    Z.testbit (ld32 (ram m) (hba + off_pi ahci_layout)) i = true ->
    ld32 (ram (final r)) (port_addr ahci_layout hba i + off_clb ahci_layout) = 0 /\
    ld32 (ram (final r)) (port_addr ahci_layout hba i + off_clbu ahci_layout) = 0 /\
    ld32 (ram (final r)) (port_addr ahci_layout hba i + off_fb ahci_layout) = 0 /\
    ld32 (ram (final r)) (port_addr ahci_layout hba i + off_fbu ahci_layout) = 0 /\
    ld32 (ram (final r)) (port_addr ahci_layout hba i + off_sig ahci_layout) = 0 /\
    ld32 (ram (final r)) (port_addr ahci_layout hba i + off_ssts ahci_layout) = 0.
Proof.
  intros R fuel hba m r Hh Hr i Hi Hb. subst r.
  rewrite port_rebase_unfold in *.
  set (pi := ld32 (ram m) (hba + off_pi ahci_layout)) in *.
  set (m0 := emit _ m) in *.
  destruct (rebase_loop_memory R 32 fuel hba 0 pi m0) as [_ Z0];
    [lia|simpl; lia|].
  destruct (rebase_loop ahci_layout R 32 fuel hba 0 pi m0) as [[] m'|m'];
    [|discriminate Hr].
  cbn [final].
  assert (Zb : forall x,
    port_addr ahci_layout hba i <= x < port_addr ahci_layout hba i + 128 ->
    x < port_addr ahci_layout hba i + 0x18 \/
      port_addr ahci_layout hba i + 0x1C <= x -> ram m' x = 0).
  { intros x Hx Hc.
    apply (Z0 m' eq_refl Hh i);
      [simpl Z.of_nat; lia|now rewrite Z.sub_0_r|exact Hx|exact Hc]. }
  layout_norm.
  repeat split; apply ld32_zero; intros x Hx; apply Zb; lia.
Qed.

(** ** Console output *)

Section Quiet.

Variable L : layout.
Variable R : reg_model.

Lemma quiet_bind : forall A B (p : M R A) (f : A -> M R B),
  quiet p -> (forall a, quiet (f a)) -> quiet (bind p f).
Proof.
  intros A B p f Hp Hf m. rewrite final_bind.
  destruct (Hp m) as [e1 [T1 Q1]].
  destruct (p m) as [a m1|m1]; cbn [final] in T1.
  - destruct (Hf a m1) as [e2 [T2 Q2]]. exists (e1 ++ e2).
    rewrite T2, T1, <- app_assoc, log_lines_app, Q1, Q2. split; reflexivity.
  - exists e1. split; assumption.
Qed.

Lemma quiet_ret : forall A (a : A), quiet (R := R) (ret a).
Proof. intros A a m. exists []. cbn. now rewrite app_nil_r. Qed.

Lemma quiet_read32 : forall a, quiet (read32 R a).
Proof. intros a m. eexists. split; reflexivity. Qed.

Lemma quiet_poll32 : forall a, quiet (poll32 R a).
Proof.
  intros a m. rewrite poll32_run. cbn [final]. rewrite poll_step_trace.
  eexists. split; reflexivity.
Qed.

Lemma quiet_write32 : forall a v, quiet (write32 R a v).
Proof. intros a v m. eexists. split; reflexivity. Qed.

Lemma quiet_write16 : forall a v, quiet (write16 R a v).
Proof. intros a v m. eexists. split; reflexivity. Qed.

Lemma quiet_memset : forall a c n, quiet (memset R a c n).
Proof. intros a c n m. eexists. split; reflexivity. Qed.

Lemma quiet_start_cmd : forall fuel port, quiet (start_cmd L R fuel port).
Proof.
  intros fuel port. unfold start_cmd.
  apply quiet_bind.
  - induction fuel as [|fuel IH].
    + intro m. exists []. cbn. now rewrite app_nil_r.
    + cbn [start_wait]. apply quiet_bind; [apply quiet_poll32|].
      intro v. destruct (_ =? 0); [apply quiet_ret|apply IH].
  - intros _. apply quiet_bind; [apply quiet_poll32|]. intro v.
    apply quiet_bind; [apply quiet_write32|]. intros _.
    apply quiet_bind; [apply quiet_poll32|]. intro w. apply quiet_write32.
Qed.

Lemma quiet_stop_cmd : forall fuel port, quiet (stop_cmd L R fuel port).
Proof.
  intros fuel port. unfold stop_cmd, stop_cmd_clear.
  apply quiet_bind.
  - apply quiet_bind; [apply quiet_poll32|]. intro v.
    apply quiet_bind; [apply quiet_write32|]. intros _.
    apply quiet_bind; [apply quiet_poll32|]. intro w. apply quiet_write32.
  - intros _. induction fuel as [|fuel IH].
    + intro m. exists []. cbn. now rewrite app_nil_r.
    + cbn [stop_wait]. apply quiet_bind; [apply quiet_poll32|].
      intro v. destruct (negb _); [apply IH|].
      apply quiet_bind; [apply quiet_poll32|].
      intro w. destruct (negb _); [apply IH|apply quiet_ret].
Qed.

Lemma quiet_rebase_headers : forall n c i, quiet (rebase_headers L R n c i).
Proof.
  induction n as [|n IH]; intros c i; [apply quiet_ret|].
  cbn [rebase_headers].
  apply quiet_bind; [apply quiet_write16|]. intros _.
  apply quiet_bind; [apply quiet_write32|]. intros _.
  apply quiet_bind; [apply quiet_write32|]. intros _.
  apply quiet_bind; [apply quiet_memset|]. intros _. apply IH.
Qed.

Lemma quiet_rebase_port : forall fuel hba i, quiet (rebase_port L R fuel hba i).
Proof.
  intros fuel hba i. unfold rebase_port. cbv zeta.
  apply quiet_bind; [apply quiet_stop_cmd|]. intros _.
  apply quiet_bind; [apply quiet_write32|]. intros _.
  apply quiet_bind; [apply quiet_write32|]. intros _.
  apply quiet_bind; [apply quiet_memset|]. intros _.
  apply quiet_bind; [apply quiet_write32|]. intros _.
  apply quiet_bind; [apply quiet_write32|]. intros _.
  apply quiet_bind; [apply quiet_memset|]. intros _.
  apply quiet_bind; [apply quiet_read32|]. intro c.
  apply quiet_bind; [apply quiet_rebase_headers|]. intros _.
  apply quiet_start_cmd.
Qed.

Lemma quiet_port_rebase : forall fuel hba, quiet (port_rebase L R fuel hba).
Proof.
  intros fuel hba. unfold port_rebase.
  apply quiet_bind; [apply quiet_read32|]. intro pi.
  generalize 0 at 1. generalize pi. generalize 32%nat.
  induction n as [|n IH]; intros p i; [apply quiet_ret|].
  cbn [rebase_loop]. apply quiet_bind; [|intros _; apply IH].
  destruct (_ =? 0); [apply quiet_ret|apply quiet_rebase_port].
Qed.

End Quiet.

Section Init.

Variable L : layout.
Variable R : reg_model.

Lemma init_ahci_run : forall fuel hba (m : machine R),
  init_ahci L R fuel hba m =
  match port_rebase L R fuel hba (emit (EvLog (abar_line hba)) m) with
  | Hang m1 => Hang m1
  | Ret _ m1 =>
      Ret tt (extend m1
        ([EvLog configured_line;
          EvRead (hba + off_pi L) (ld32 (ram m1) (hba + off_pi L))]
         ++ flat_map (fun i => if Z.testbit (ld32 (ram m1) (hba + off_pi L)) i
                               then visit L (ram m1) hba i else [])
                     port_indices
         ++ [EvLog completed_line]))
  end.
Proof.
  intros fuel hba m. unfold init_ahci. unfold bind at 1. unfold kprintf_lx at 1.
  change (format_lx _ hba) with (abar_line hba).
  unfold bind at 1.
  destruct (port_rebase L R fuel hba (emit (EvLog (abar_line hba)) m))
    as [[] m1|m1]; [|reflexivity].
  unfold bind, kprintf0. rewrite probe_port_run.
  unfold extend, emit. cbn [ram dev trace].
  rewrite <- !app_assoc. reflexivity.
Qed.

Lemma init_ahci_lines_aux : forall fuel hba (m : machine R),
  exists evs,
    trace (final (init_ahci L R fuel hba m)) = trace m ++ evs /\
    match port_rebase L R fuel hba (emit (EvLog (abar_line hba)) m) with
    | Hang _ =>
        returned (init_ahci L R fuel hba m) = false /\
        log_lines evs = [abar_line hba]
    | Ret _ m1 =>
        returned (init_ahci L R fuel hba m) = true /\
        ram (final (init_ahci L R fuel hba m)) = ram m1 /\
        log_lines evs =
          abar_line hba :: configured_line ::
          found_lines L (ram m1) hba ++ [completed_line]
    end.
Proof.
  intros fuel hba m. rewrite init_ahci_run.
  destruct (quiet_port_rebase L R fuel hba (emit (EvLog (abar_line hba)) m))
    as [e1 [T1 Q1]].
  destruct (port_rebase L R fuel hba (emit (EvLog (abar_line hba)) m))
    as [[] m1|m1]; cbn [final] in *.
  - eexists. unfold extend. cbn [trace ram]. rewrite T1. unfold emit.
    cbn [trace]. rewrite <- !app_assoc. split; [reflexivity|].
    split; [reflexivity|]. split; [reflexivity|].
    cbn [app]. change (log_lines (EvLog ?s :: ?l)) with (s :: log_lines l).
    rewrite log_lines_app, Q1. cbn [app].
    change (log_lines (EvLog ?s :: ?l)) with (s :: log_lines l).
    change (log_lines (EvRead ?a ?v :: ?l)) with (log_lines l).
    rewrite log_lines_app. reflexivity.
  - exists ([EvLog (abar_line hba)] ++ e1). rewrite T1. unfold emit.
    cbn [trace]. rewrite <- app_assoc. split; [reflexivity|].
    split; [reflexivity|]. rewrite log_lines_app, Q1. reflexivity.
Qed.

End Init.

Lemma log_lines_flat_map_nil : forall (A : Type) (f : A -> list event) l,
  (forall x, In x l -> log_lines (f x) = []) ->
  log_lines (flat_map f l) = [].
Proof.
  intros A f l. induction l as [|x l IH]; intros H; [reflexivity|].
  cbn [flat_map]. rewrite log_lines_app, H by now left.
  apply IH. intros y Hy. apply H. now right.
Qed.

Lemma found_lines_after_rebase : forall R fuel hba (m m1 : machine R),
  1256 <= hba ->
  port_rebase ahci_layout R fuel hba m = Ret tt m1 ->
  found_lines ahci_layout (ram m1) hba = [].
Proof.
  intros R fuel hba m m1 Hh Hr. unfold found_lines.
  assert (Hpi : ld32 (ram m1) (hba + off_pi ahci_layout) =
                ld32 (ram m) (hba + off_pi ahci_layout)).
  { apply ld32_same. intros x Hx.
    pose proof (port_rebase_frame R fuel hba m x) as F.
    rewrite Hr in F. cbn [final] in F. apply F; layout_norm; lia. }
  rewrite Hpi. apply log_lines_flat_map_nil. intros i Hi.
  apply port_indices_range in Hi.
  destruct (Z.testbit (ld32 (ram m) (hba + off_pi ahci_layout)) i) eqn:Hb;
    [|reflexivity].
  rewrite log_lines_visit. unfold port_class.
  pose proof (port_rebase_zero R fuel hba m) as Z0. cbv zeta in Z0.
  rewrite Hr in Z0. cbn [final returned] in Z0.
  destruct (Z0 ltac:(lia) eq_refl i Hi Hb) as [_ [_ [_ [_ [_ Hs]]]]].
  rewrite Hs. reflexivity.
Qed.

(** ** port_rebase on plain memory and the order of the ports *)

Lemma idle_zero : idle 0.
Proof. split; reflexivity. Qed.

Lemma rebase_port_returns_plain : forall fuel hba i (m : machine ram_model),
  0 <= i < 32 -> (0 < fuel)%nat -> 1256 <= hba + 256 ->
  idle (ld32 (ram m) (port_addr ahci_layout hba i + off_cmd ahci_layout)) ->
  exists m', rebase_port ahci_layout ram_model fuel hba i m = Ret tt m'.
Proof.
  intros fuel hba i m Hi Hf Hh [I14 I15].
  destruct (stop_cmd_plain ahci_layout fuel _ m I14 I15 Hf) as [m1 [S1 _]].
  pose proof (rebase_port_middle ram_model fuel hba i m Hi) as Hmid.
  rewrite S1 in Hmid. destruct Hmid as [m2 [E [_ [_ Z2]]]].
  assert (C : ld32 (ram m2)
                (port_addr ahci_layout hba i + off_cmd ahci_layout) = 0).
  { apply ld32_zero. intros x Hx. apply Z2.
    - unfold low, port_addr in *. layout_norm. lia.
    - layout_norm. lia. }
  destruct (start_cmd_plain ahci_layout fuel (port_addr ahci_layout hba i) m2)
    as [m' [S2 _]]; [now rewrite C|assumption|].
  exists m'. now rewrite E.
Qed.

Lemma rebase_loop_returns_plain :
  forall n fuel hba i pi (m : machine ram_model),
  0 <= i -> i + Z.of_nat n <= 32 -> (0 < fuel)%nat -> 1256 <= hba + 256 ->
  (forall k, i <= k < i + Z.of_nat n -> Z.testbit pi (k - i) = true ->
     idle (ld32 (ram m) (port_addr ahci_layout hba k + off_cmd ahci_layout))) ->
  returned (rebase_loop ahci_layout ram_model n fuel hba i pi m) = true.
Proof.
  induction n as [|n IH]; intros fuel hba i pi m Hi Hn Hf Hh Hidle;
    [reflexivity|].
  cbn [rebase_loop]. rewrite land_1_testbit.
  assert (Hu : u8 (i + 1) = i + 1) by (apply u8_small; lia).
  rewrite Hu.
  assert (HP : forall k, port_addr ahci_layout hba k = hba + 256 + k * 128).
  { intro k. unfold port_addr. layout_norm. reflexivity. }
  assert (Hshift : forall k, i + 1 <= k ->
            Z.testbit (Z.shiftr pi 1) (k - (i + 1)) = Z.testbit pi (k - i)).
  { intros k Hk. rewrite Z.shiftr_spec by lia.
    now replace (k - (i + 1) + 1) with (k - i) by lia. }
  destruct (Z.testbit pi 0) eqn:E0; cbn [negb].
  - destruct (rebase_port_returns_plain fuel hba i m) as [m1 Hm1];
      [lia|assumption|assumption| |].
    { apply Hidle; [lia|]. now rewrite Z.sub_diag. }
    unfold bind. rewrite Hm1.
    destruct (rebase_port_memory ram_model fuel hba i m) as [Fp Zp]; [lia|].
    rewrite Hm1 in Fp. cbn [final] in Fp.
    apply IH; try assumption; try lia.
    intros k Hk Hb. rewrite Hshift in Hb by lia.
    destruct (Z_le_gt_dec (k - i) 7) as [Hnear|Hfar].
    + replace (ld32 (ram m1) (port_addr ahci_layout hba k + off_cmd ahci_layout))
        with 0; [apply idle_zero|].
      symmetry. apply ld32_zero. intros x Hx.
      apply (Zp m1 Hm1); unfold low; rewrite !HP in *; layout_norm; lia.
    + replace (ld32 (ram m1) (port_addr ahci_layout hba k + off_cmd ahci_layout))
        with (ld32 (ram m) (port_addr ahci_layout hba k + off_cmd ahci_layout)).
      * apply Hidle; [lia|assumption].
      * symmetry. apply ld32_same. intros x Hx.
        apply Fp; unfold low; rewrite !HP in *; layout_norm; lia.
  - unfold bind, ret. apply IH; try assumption; try lia.
    intros k Hk Hb. rewrite Hshift in Hb by lia. apply Hidle; [lia|assumption].
Qed.

Lemma port_rebase_returns_plain : forall fuel hba (m : machine ram_model),
  (0 < fuel)%nat -> 1256 <= hba + 0x100 ->
  (forall i, 0 <= i < 32 ->
     Z.testbit (ld32 (ram m) (hba + off_pi ahci_layout)) i = true ->
     idle (ld32 (ram m) (port_addr ahci_layout hba i + off_cmd ahci_layout))) ->
  returned (port_rebase ahci_layout ram_model fuel hba m) = true.
Proof.
  intros fuel hba m Hf Hh Hidle. rewrite port_rebase_unfold.
  apply rebase_loop_returns_plain.
  - lia.
  - simpl Z.of_nat. lia.
  - assumption.
  - assumption.
  - intros k Hk Hb. rewrite Z.sub_0_r in Hb. unfold emit. cbn [ram].
    simpl Z.of_nat in Hk. apply Hidle; [lia|assumption].
Qed.

(** *** The order of the ports *)

Section Order.

Variable L : layout.
Variable R : reg_model.

Lemma rebase_loop_ports : forall n fuel hba i pi (m : machine R),
  0 <= i -> i + Z.of_nat n <= 255 ->
  rebase_loop L R n fuel hba i pi m =
  rebase_ports L R fuel hba
    (filter (fun k => Z.testbit pi (k - i)) (zrange i n)) m.
Proof.
  induction n as [|n IH]; intros fuel hba i pi m Hi Hn; [reflexivity|].
  cbn [rebase_loop zrange filter]. rewrite land_1_testbit, Z.sub_diag.
  assert (Hu : u8 (i + 1) = i + 1) by (apply u8_small; lia).
  rewrite Hu.
  assert (Hfil : filter (fun k => Z.testbit pi (k - i)) (zrange (i + 1) n) =
                 filter (fun k => Z.testbit (Z.shiftr pi 1) (k - (i + 1)))
                        (zrange (i + 1) n)).
  { apply filter_ext_in. intros k Hk. apply zrange_lower in Hk.
    rewrite Z.shiftr_spec by lia.
    now replace (k - (i + 1) + 1) with (k - i) by lia. }
  rewrite Hfil.
  destruct (Z.testbit pi 0); cbn [negb rebase_ports].
  - unfold bind. destruct (rebase_port L R fuel hba i m) as [[] m1|m1];
      [|reflexivity].
    apply IH; lia.
  - unfold bind, ret. apply IH; lia.
Qed.

End Order.

(** ** Properties of the remaining code *)

(** X1. [check_type] always returns one of the five device codes.  It
    reads the status register, and it reads the signature register only
    when the detection field is 3 and the power-management field is 1;
    these reads are all it does. *)
Theorem check_type_reads_signature_only_when_present :
  forall L R port (m : machine R),
  let ssts := ld32 (ram m) (port + off_ssts L) in
  exists dt m',
    check_type L R port m = Ret dt m' /\
    (dt = AHCI_DEV_NULL \/ dt = AHCI_DEV_SATA \/ dt = AHCI_DEV_SEMB \/
     dt = AHCI_DEV_PM \/ dt = AHCI_DEV_SATAPI) /\
    trace m' =
      trace m ++
      (if (det_field ssts =? 3) && (ipm_field ssts =? 1)
       then [EvRead (port + off_ssts L) ssts;
             EvRead (port + off_sig L) (ld32 (ram m) (port + off_sig L))]
       else [EvRead (port + off_ssts L) ssts]).
Proof.
  intros L R port m ssts. rewrite check_type_run. eexists. eexists.
  split; [reflexivity|]. split.
  - unfold port_class, classify.
    destruct ((det_field _ =? 3) && (ipm_field _ =? 1)); [|now left].
    destruct (_ =? SATA_SIG_ATAPI); [now do 4 right|].
    destruct (_ =? SATA_SIG_SEMB); [now right; right; left|].
    destruct (_ =? SATA_SIG_PM); [now right; right; right; left|].
    now right; left.
  - unfold extend, check_events. cbn [trace]. fold ssts.
    now destruct ((det_field ssts =? 3) && (ipm_field ssts =? 1)).
Qed.

(** X6. The loop over the 32 command headers of the command list at [c]
    returns, and afterwards every header has its length field equal to 8
    and both halves of its command-table base equal to 0: the address
    stored in [ctba] is wiped by the [memset] that follows the store.  No
    byte outside the headers' ranges changes. *)
Theorem rebase_headers_result : forall L R c (m : machine R),
  header_ok L ->
  exists m',
    rebase_headers L R 32 c 0 m = Ret tt m' /\
    (forall s, 0 <= s < 32 ->
       ld16 (ram m') (c + s * sizeof_cmd_header L + off_prdtl L) = 8 /\
       ld32 (ram m') (c + s * sizeof_cmd_header L + off_ctba L) = 0 /\
       ld32 (ram m') (c + s * sizeof_cmd_header L + off_ctbau L) = 0) /\
    (forall x, (forall s, 0 <= s < 32 -> ~ in_header L c s x) ->
               ram m' x = ram m x).
Proof.
  intros L R c m HL.
  destruct (rebase_headers_memory L R HL 32 c 0 m) as [m' [Hr [Hf Hv]]];
    [lia|simpl; lia|].
  exists m'. split; [exact Hr|]. split.
  - intros s Hs. apply Hv. simpl Z.of_nat. lia.
  - intros x Hx. apply Hf. intros s Hs. apply Hx. simpl Z.of_nat in Hs. lia.
Qed.

(** X7. On every layout whose [fb] and [fbu] fields do not overlap [clb],
    for every adapter address, port, memory content and register model:
    when [stop_cmd] does not return, [rebase_port] does nothing more; when
    it returns, [rebase_port] reads [port->clb] back as 0 and therefore
    runs its header loop on the command list at address 0, its three
    [memset] calls starting at the register [clb], the register [fb] and
    the header field [ctba], and then calls [start_cmd]. *)
Theorem rebase_port_course : forall L R fuel hba i (m : machine R),
  0 <= i < 256 ->
  off_fb L + 4 <= off_clb L \/ off_clb L + 4 <= off_fb L ->
  off_fbu L + 4 <= off_clb L \/ off_clb L + 4 <= off_fbu L ->
  match stop_cmd L R fuel (port_addr L hba i) m with
  | Hang m1 => rebase_port L R fuel hba i m = Hang m1
  | Ret _ m1 =>
      exists m2,
        rebase_port L R fuel hba i m =
          start_cmd L R fuel (port_addr L hba i) m2 /\
        dev m2 = dev m1 /\
        trace m2 = trace m1 ++ layout_events L hba i
  end.
Proof. exact rebase_port_run. Qed.

(** X8. [port_rebase] reads the ports-implemented register once and then
    handles exactly the ports whose bit is set, lowest index first; a port
    whose engine wait does not end ends the run, and no later port is
    handled. *)
Theorem port_rebase_handles_set_bits_in_order :
  forall L R fuel hba (m : machine R),
  port_rebase L R fuel hba m =
  bind (read32 R (hba + off_pi L))
       (fun pi => rebase_ports L R fuel hba
                    (filter (Z.testbit pi) port_indices)) m.
Proof.
  intros L R fuel hba m. unfold port_rebase, bind, read32. cbv zeta.
  set (pi := ld32 (ram m) (hba + off_pi L)).
  rewrite rebase_loop_ports by (simpl; lia).
  rewrite port_indices_zrange.
  rewrite (filter_ext (fun k => Z.testbit pi (k - 0)) (Z.testbit pi))
    by (intro k; now rewrite Z.sub_0_r).
  reflexivity.
Qed.

(** X9. Under the AHCI register map, whether it returns or not,
    [port_rebase] changes no byte outside the 1254 bytes from address 2 on
    and the 4992 bytes from the first port register block on.  In
    particular it never stores into the scratch region at [AHCI_BASE]
    unless the adapter's registers themselves lie there. *)
Theorem port_rebase_footprint : forall R fuel hba (m : machine R) x,
  ~ (2 <= x < 1256) ->
  x < hba + 0x100 \/ hba + 0x100 + 0x1380 <= x ->
  ram (final (port_rebase ahci_layout R fuel hba m)) x = ram m x.
Proof. exact port_rebase_frame. Qed.

(** X10. Under the AHCI register map, with the port register blocks above
    address 1256: when [port_rebase] returns, the command-list base
    (both halves), the FIS base (both halves), the signature and the
    status register of every implemented port read 0. *)
Theorem port_rebase_leaves_registers_zero :
  forall R fuel hba (m : machine R),
  let r := port_rebase ahci_layout R fuel hba m in
  1256 <= hba + 0x100 ->
  returned r = true ->
  forall i, 0 <= i < 32 ->
    Z.testbit (ld32 (ram m) (hba + off_pi ahci_layout)) i = true ->
    ld32 (ram (final r)) (port_addr ahci_layout hba i + off_clb ahci_layout) = 0 /\
    ld32 (ram (final r)) (port_addr ahci_layout hba i + off_clbu ahci_layout) = 0 /\
    ld32 (ram (final r)) (port_addr ahci_layout hba i + off_fb ahci_layout) = 0 /\
    ld32 (ram (final r)) (port_addr ahci_layout hba i + off_fbu ahci_layout) = 0 /\
    ld32 (ram (final r)) (port_addr ahci_layout hba i + off_sig ahci_layout) = 0 /\
    ld32 (ram (final r)) (port_addr ahci_layout hba i + off_ssts ahci_layout) = 0.
Proof. exact port_rebase_zero. Qed.

(** X11. On plain memory under the AHCI register map, with the port
    register blocks above address 1256: when both running bits are clear
    in the command register of every implemented port, [port_rebase]
    returns, for every poll budget of at least one. *)
Theorem port_rebase_returns_when_idle :
  forall fuel hba (m : machine ram_model),
  (0 < fuel)%nat -> 1256 <= hba + 0x100 ->
  (forall i, 0 <= i < 32 ->
     Z.testbit (ld32 (ram m) (hba + off_pi ahci_layout)) i = true ->
     idle (ld32 (ram m) (port_addr ahci_layout hba i + off_cmd ahci_layout))) ->
  returned (port_rebase ahci_layout ram_model fuel hba m) = true.
Proof. exact port_rebase_returns_plain. Qed.

(** X12. [init_ahci] prints the adapter address first.  When
    [port_rebase] does not return, [init_ahci] does not return either and
    that line is the only one printed.  When [port_rebase] returns,
    [init_ahci] returns with the memory [port_rebase] left, and its lines
    are the address line, the line announcing the enumeration, the lines
    [probe_port] prints on that memory, and the completion line. *)
Theorem init_ahci_lines : forall L R fuel hba (m : machine R),
  exists evs,
    trace (final (init_ahci L R fuel hba m)) = trace m ++ evs /\
    match port_rebase L R fuel hba (emit (EvLog (abar_line hba)) m) with
    | Hang _ =>
        returned (init_ahci L R fuel hba m) = false /\
        log_lines evs = [abar_line hba]
    | Ret _ m1 =>
        returned (init_ahci L R fuel hba m) = true /\
        ram (final (init_ahci L R fuel hba m)) = ram m1 /\
        log_lines evs =
          abar_line hba :: configured_line ::
          found_lines L (ram m1) hba ++ [completed_line]
    end.
Proof. exact init_ahci_lines_aux. Qed.

(** X13. Under the AHCI register map, with the adapter mapped above
    address 1256 and registers that read back what was last stored: when
    [init_ahci] returns it has printed its three progress lines and no
    "drive found" line, whatever the ports held, because [port_rebase] has
    cleared the status register of every implemented port before
    [probe_port] reads it. *)
Theorem init_ahci_finds_no_drive : forall R fuel hba (m : machine R),
  1256 <= hba ->
  returned (init_ahci ahci_layout R fuel hba m) = true ->
  exists evs,
    trace (final (init_ahci ahci_layout R fuel hba m)) = trace m ++ evs /\
    log_lines evs = [abar_line hba; configured_line; completed_line].
Proof.
  intros R fuel hba m Hh Hr.
  destruct (init_ahci_lines_aux ahci_layout R fuel hba m) as [evs [Ht Hc]].
  exists evs. split; [exact Ht|].
  destruct (port_rebase ahci_layout R fuel hba (emit (EvLog (abar_line hba)) m))
    as [[] m1|m1] eqn:E.
  - destruct Hc as [_ [_ Hl]]. rewrite Hl.
    now rewrite (found_lines_after_rebase R fuel hba _ m1 Hh E).
  - destruct Hc as [Hf _]. congruence.
Qed.

(** X14. For distinct ports [i] and [j] below 32, the 1 KiB command lists
    at the addresses computed for [port->clb] do not overlap, and neither
    do the 256-byte FIS areas at the addresses computed for [port->fb]. *)
Theorem base_ranges_disjoint : forall i j,
  0 <= i < 32 -> 0 <= j < 32 -> i <> j ->
  disjoint (clb_base i) 1024 (clb_base j) 1024 /\
  disjoint (fb_base i) 256 (fb_base j) 256.
Proof.
  intros i j Hi Hj Hne. split;
    [now apply clb_ranges_disjoint|now apply fb_ranges_disjoint].
Qed.

(** X15. The addresses computed by [port_rebase] divide the scratch
    region in three: command lists in the first 32 KiB from [AHCI_BASE],
    FIS areas in the next 8 KiB, command tables in the 256 KiB after that,
    so that the layout ends 0x4A000 bytes after [AHCI_BASE]; and the
    command tables of distinct header slots do not overlap. *)
Theorem scratch_layout_extent : forall i s t,
  0 <= i < 32 -> 0 <= s < 32 -> 0 <= t < 32 ->
  AHCI_BASE <= clb_base i /\ clb_base i + 1024 <= AHCI_BASE + 0x8000 /\
  AHCI_BASE + 0x8000 <= fb_base i /\ fb_base i + 256 <= AHCI_BASE + 0xA000 /\
  AHCI_BASE + 0xA000 <= ctba_base s /\
  ctba_base s + 256 <= AHCI_BASE + 0x4A000 /\
  (s <> t -> disjoint (ctba_base s) 256 (ctba_base t) 256).
Proof.
  intros i s t Hi Hs Ht. unfold disjoint, clb_base, fb_base, ctba_base.
  rewrite !Z.shiftl_mul_pow2 by lia.
  change (2 ^ 10) with 1024. change (2 ^ 8) with 256. change (2 ^ 13) with 8192.
  unfold AHCI_BASE. lia.
Qed.

(** ** Instances of the further properties *)

Lemma stop_cmd_has_no_timeout_witness :
  ((forall n,
      Z.testbit (nth_poll stuck_model n (port0 0 + off_cmd ahci_layout)
                   (final (stop_cmd_clear ahci_layout stuck_model
                             (port0 0) jammed))) 15 = true) \/
   (forall n,
      Z.testbit (nth_poll stuck_model n (port0 0 + off_cmd ahci_layout)
                   (final (stop_cmd_clear ahci_layout stuck_model
                             (port0 0) jammed))) 14 = true)) /\
  forall fuel,
    returned (stop_cmd ahci_layout stuck_model fuel (port0 0) jammed) = false.
Proof.
  assert (H :
    (forall n,
       Z.testbit (nth_poll stuck_model n (port0 0 + off_cmd ahci_layout)
                    (final (stop_cmd_clear ahci_layout stuck_model
                              (port0 0) jammed))) 15 = true) \/
    (forall n,
       Z.testbit (nth_poll stuck_model n (port0 0 + off_cmd ahci_layout)
                    (final (stop_cmd_clear ahci_layout stuck_model
                              (port0 0) jammed))) 14 = true)).
  { left. intro n. apply stuck_bit. }
  split; [exact H|].
  exact (stop_cmd_has_no_timeout ahci_layout stuck_model (port0 0) jammed H).
Defined.

Lemma start_cmd_has_no_timeout_witness :
  (forall n,
     Z.testbit (nth_poll stuck_model n (port0 0 + off_cmd ahci_layout) jammed)
               15 = true) /\
  forall fuel,
    exists m' polls,
      start_cmd ahci_layout stuck_model fuel (port0 0) jammed = Hang m' /\
      ram m' = ram jammed /\
      trace m' =
        trace jammed ++ map (EvRead (port0 0 + off_cmd ahci_layout)) polls /\
      List.length polls = fuel.
Proof.
  assert (H : forall n,
    Z.testbit (nth_poll stuck_model n (port0 0 + off_cmd ahci_layout) jammed)
              15 = true).
  { intro n. apply stuck_bit. }
  split; [exact H|].
  exact (start_cmd_has_no_timeout ahci_layout stuck_model (port0 0) jammed H).
Defined.

Lemma engine_restart_on_plain_memory_witness :
  Z.testbit (ld32 (ram two_ports) (port0 0 + off_cmd ahci_layout)) 14 = false /\
  Z.testbit (ld32 (ram two_ports) (port0 0 + off_cmd ahci_layout)) 15 = false /\
  (0 < 1)%nat /\
  exists m1 m2,
    stop_cmd ahci_layout ram_model 1 (port0 0) two_ports = Ret tt m1 /\
    ld32 (ram m1) (port0 0 + off_cmd ahci_layout) =
      Z.land (ld32 (ram two_ports) (port0 0 + off_cmd ahci_layout))
             (Z.lnot 0x11) /\
    start_cmd ahci_layout ram_model 1 (port0 0) m1 = Ret tt m2 /\
    ld32 (ram m2) (port0 0 + off_cmd ahci_layout) =
      Z.lor (ld32 (ram two_ports) (port0 0 + off_cmd ahci_layout)) 0x11 /\
    (forall x,
       x < port0 0 + off_cmd ahci_layout \/
         port0 0 + off_cmd ahci_layout + 4 <= x ->
       ram m1 x = ram two_ports x /\ ram m2 x = ram two_ports x).
Proof.
  split; [vm_compute; reflexivity|]. split; [vm_compute; reflexivity|].
  split; [lia|].
  apply (engine_restart_on_plain_memory ahci_layout 1 (port0 0) two_ports);
    [vm_compute; reflexivity|vm_compute; reflexivity|lia].
Defined.

Lemma rebase_headers_result_witness :
  header_ok ahci_layout /\
  exists m',
    rebase_headers ahci_layout ram_model 32 0 0 two_ports = Ret tt m' /\
    (forall s, 0 <= s < 32 ->
       ld16 (ram m') (0 + s * sizeof_cmd_header ahci_layout
                      + off_prdtl ahci_layout) = 8 /\
       ld32 (ram m') (0 + s * sizeof_cmd_header ahci_layout
                      + off_ctba ahci_layout) = 0 /\
       ld32 (ram m') (0 + s * sizeof_cmd_header ahci_layout
                      + off_ctbau ahci_layout) = 0) /\
    (forall x, (forall s, 0 <= s < 32 -> ~ in_header ahci_layout 0 s x) ->
               ram m' x = ram two_ports x).
Proof.
  split; [exact header_ok_ahci|].
  exact (rebase_headers_result ahci_layout ram_model 0 two_ports
           header_ok_ahci).
Defined.

Lemma rebase_port_course_witness :
  0 <= 0 < 256 /\
  (off_fb ahci_layout + 4 <= off_clb ahci_layout \/
   off_clb ahci_layout + 4 <= off_fb ahci_layout) /\
  (off_fbu ahci_layout + 4 <= off_clb ahci_layout \/
   off_clb ahci_layout + 4 <= off_fbu ahci_layout) /\
  match stop_cmd ahci_layout ram_model 1 (port_addr ahci_layout hba0 0)
          one_port with
  | Hang m1 => rebase_port ahci_layout ram_model 1 hba0 0 one_port = Hang m1
  | Ret _ m1 =>
      exists m2,
        rebase_port ahci_layout ram_model 1 hba0 0 one_port =
          start_cmd ahci_layout ram_model 1 (port_addr ahci_layout hba0 0) m2 /\
        dev m2 = dev m1 /\
        trace m2 = trace m1 ++ layout_events ahci_layout hba0 0
  end.
Proof.
  assert (H0 : 0 <= 0 < 256) by lia.
  assert (H1 : off_fb ahci_layout + 4 <= off_clb ahci_layout \/
               off_clb ahci_layout + 4 <= off_fb ahci_layout)
    by (right; cbn; lia).
  assert (H2 : off_fbu ahci_layout + 4 <= off_clb ahci_layout \/
               off_clb ahci_layout + 4 <= off_fbu ahci_layout)
    by (right; cbn; lia).
  split; [exact H0|]. split; [exact H1|]. split; [exact H2|].
  exact (rebase_port_course ahci_layout ram_model 1 hba0 0 one_port H0 H1 H2).
Defined.

Lemma port_rebase_footprint_witness :
  ~ (2 <= AHCI_BASE < 1256) /\
  (AHCI_BASE < hba0 + 0x100 \/ hba0 + 0x100 + 0x1380 <= AHCI_BASE) /\
  ram (final (port_rebase ahci_layout ram_model 1 hba0 one_port)) AHCI_BASE =
    ram one_port AHCI_BASE.
Proof.
  assert (H1 : ~ (2 <= AHCI_BASE < 1256)) by (unfold AHCI_BASE; lia).
  assert (H2 : AHCI_BASE < hba0 + 0x100 \/ hba0 + 0x100 + 0x1380 <= AHCI_BASE)
    by (left; unfold AHCI_BASE, hba0; lia).
  split; [exact H1|]. split; [exact H2|].
  exact (port_rebase_footprint ram_model 1 hba0 one_port AHCI_BASE H1 H2).
Defined.

Lemma port_rebase_leaves_registers_zero_witness :
  1256 <= hba0 + 0x100 /\
  returned (port_rebase ahci_layout ram_model 1 hba0 one_port) = true /\
  0 <= 0 < 32 /\
  Z.testbit (ld32 (ram one_port) (hba0 + off_pi ahci_layout)) 0 = true /\
  ld32 (ram (final (port_rebase ahci_layout ram_model 1 hba0 one_port)))
       (port_addr ahci_layout hba0 0 + off_clb ahci_layout) = 0 /\
  ld32 (ram (final (port_rebase ahci_layout ram_model 1 hba0 one_port)))
       (port_addr ahci_layout hba0 0 + off_clbu ahci_layout) = 0 /\
  ld32 (ram (final (port_rebase ahci_layout ram_model 1 hba0 one_port)))
       (port_addr ahci_layout hba0 0 + off_fb ahci_layout) = 0 /\
  ld32 (ram (final (port_rebase ahci_layout ram_model 1 hba0 one_port)))
       (port_addr ahci_layout hba0 0 + off_fbu ahci_layout) = 0 /\
  ld32 (ram (final (port_rebase ahci_layout ram_model 1 hba0 one_port)))
       (port_addr ahci_layout hba0 0 + off_sig ahci_layout) = 0 /\
  ld32 (ram (final (port_rebase ahci_layout ram_model 1 hba0 one_port)))
       (port_addr ahci_layout hba0 0 + off_ssts ahci_layout) = 0.
Proof.
  assert (H1 : 1256 <= hba0 + 0x100) by (unfold hba0; lia).
  assert (H2 : returned (port_rebase ahci_layout ram_model 1 hba0 one_port)
               = true) by (vm_compute; reflexivity).
  assert (H3 : 0 <= 0 < 32) by lia.
  assert (H4 : Z.testbit (ld32 (ram one_port) (hba0 + off_pi ahci_layout)) 0
               = true) by (vm_compute; reflexivity).
  split; [exact H1|]. split; [exact H2|]. split; [exact H3|].
  split; [exact H4|].
  exact (port_rebase_leaves_registers_zero ram_model 1 hba0 one_port
           H1 H2 0 H3 H4).
Defined.

Lemma port_rebase_returns_when_idle_witness :
  (0 < 1)%nat /\ 1256 <= hba0 + 0x100 /\
  (forall i, 0 <= i < 32 ->
     Z.testbit (ld32 (ram two_ports) (hba0 + off_pi ahci_layout)) i = true ->
     idle (ld32 (ram two_ports)
             (port_addr ahci_layout hba0 i + off_cmd ahci_layout))) /\
  returned (port_rebase ahci_layout ram_model 1 hba0 two_ports) = true.
Proof.
  assert (H1 : (0 < 1)%nat) by lia.
  assert (H2 : 1256 <= hba0 + 0x100) by (unfold hba0; lia).
  assert (H3 : forall i, 0 <= i < 32 ->
     Z.testbit (ld32 (ram two_ports) (hba0 + off_pi ahci_layout)) i = true ->
     idle (ld32 (ram two_ports)
             (port_addr ahci_layout hba0 i + off_cmd ahci_layout))).
  { intros i Hi _.
    replace (ld32 (ram two_ports)
               (port_addr ahci_layout hba0 i + off_cmd ahci_layout)) with 0;
      [apply idle_zero|].
    symmetry. apply ld32_zero. intros x Hx. unfold two_ports. cbn [ram].
    rewrite st32_other; [reflexivity|].
    unfold port_addr in Hx. layout_norm. lia. }
  split; [exact H1|]. split; [exact H2|]. split; [exact H3|].
  exact (port_rebase_returns_when_idle 1 hba0 two_ports H1 H2 H3).
Defined.

Lemma init_ahci_finds_no_drive_witness :
  1256 <= hba0 /\
  returned (init_ahci ahci_layout ram_model 1 hba0 scenario) = true /\
  exists evs,
    trace (final (init_ahci ahci_layout ram_model 1 hba0 scenario)) =
      trace scenario ++ evs /\
    log_lines evs = [abar_line hba0; configured_line; completed_line].
Proof.
  assert (H1 : 1256 <= hba0) by (unfold hba0; lia).
  assert (H2 : returned (init_ahci ahci_layout ram_model 1 hba0 scenario)
               = true) by (vm_compute; reflexivity).
  split; [exact H1|]. split; [exact H2|].
  exact (init_ahci_finds_no_drive ram_model 1 hba0 scenario H1 H2).
Defined.

Lemma base_ranges_disjoint_witness :
  0 <= 0 < 32 /\ 0 <= 1 < 32 /\ 0 <> 1 /\
  disjoint (clb_base 0) 1024 (clb_base 1) 1024 /\
  disjoint (fb_base 0) 256 (fb_base 1) 256.
Proof.
  assert (H1 : 0 <= 0 < 32) by lia.
  assert (H2 : 0 <= 1 < 32) by lia.
  assert (H3 : 0 <> 1) by lia.
  split; [exact H1|]. split; [exact H2|]. split; [exact H3|].
  exact (base_ranges_disjoint 0 1 H1 H2 H3).
Defined.

Lemma scratch_layout_extent_witness :
  0 <= 0 < 32 /\ 0 <= 0 < 32 /\ 0 <= 1 < 32 /\
  AHCI_BASE <= clb_base 0 /\ clb_base 0 + 1024 <= AHCI_BASE + 0x8000 /\
  AHCI_BASE + 0x8000 <= fb_base 0 /\ fb_base 0 + 256 <= AHCI_BASE + 0xA000 /\
  AHCI_BASE + 0xA000 <= ctba_base 0 /\
  ctba_base 0 + 256 <= AHCI_BASE + 0x4A000 /\
  (0 <> 1 -> disjoint (ctba_base 0) 256 (ctba_base 1) 256).
Proof.
  assert (H1 : 0 <= 0 < 32) by lia.
  assert (H2 : 0 <= 1 < 32) by lia.
  split; [exact H1|]. split; [exact H1|]. split; [exact H2|].
  exact (scratch_layout_extent 0 0 1 H1 H1 H2).
Defined.

(** ** Adapters that change their mind between two reads *)

Lemma flicker_nth_poll : forall n a (m : machine flicker_model),
  nth_poll flicker_model n a m =
  u32 (flicker_value (dev m + n) (ld32 (ram m) a)).
Proof.
  induction n as [|n IH]; intros a [r d t].
  - cbn [nth_poll]. unfold poll_value. cbn [ram dev rm_read flicker_model fst].
    now rewrite Nat.add_0_r.
  - cbn [nth_poll]. rewrite IH. unfold poll_step, poll32.
    cbn [rm_read flicker_model final ram dev].
    now rewrite Nat.add_succ_r.
Qed.

(** The wait of [stop_cmd] on the flickering adapter reads both bits clear
    from its fourth poll on. *)
Lemma flicker_settles :
  settles flicker_model 3 (port0 0 + off_cmd ahci_layout)
    (final (stop_cmd_clear ahci_layout flicker_model (port0 0) flickering)).
Proof.
  intros n Hn. rewrite flicker_nth_poll.
  change (dev (final (stop_cmd_clear ahci_layout flicker_model (port0 0)
                        flickering))) with 2%nat.
  replace (2 + n)%nat with (5 + (n - 3))%nat by lia.
  split; reflexivity.
Qed.

(** C6, counterexample.  The flickering adapter meets the condition of the
    claim: both bits read clear from the fourth poll of the wait on.  Yet
    [stop_cmd] returns after the first two polls of its wait, which read
    0x8000 (bit 14 clear) and 0x4000 (bit 15 clear): the last value it
    read has the FIS-receive-running bit set, and so has the value a poll
    made at that moment returns. *)
Lemma stop_cmd_returns_while_fis_running :
  let a := port0 0 + off_cmd ahci_layout in
  let r := stop_cmd ahci_layout flicker_model 4 (port0 0) flickering in
  settles flicker_model 3 a
    (final (stop_cmd_clear ahci_layout flicker_model (port0 0) flickering)) /\
  returned r = true /\
  trace (final r) =
    [EvRead a 0; EvWrite a 0; EvRead a 0; EvWrite a 0;
     EvRead a 0x8000; EvRead a 0x4000] /\
  Z.testbit 0x4000 14 = true /\
  Z.testbit (poll_value flicker_model a (final r)) 14 = true /\
  ~ returned_idle flicker_model a (final r).
Proof.
  cbv zeta. split; [exact flicker_settles|].
  split; [vm_compute; reflexivity|]. split; [vm_compute; reflexivity|].
  split; [reflexivity|].
  assert (H : Z.testbit
                (poll_value flicker_model (port0 0 + off_cmd ahci_layout)
                   (final (stop_cmd ahci_layout flicker_model 4 (port0 0)
                             flickering))) 14 = true)
    by (vm_compute; reflexivity).
  split; [exact H|].
  intros [_ [I14 _]]. rewrite H in I14. discriminate I14.
Qed.

